(** * Pinterest template generator: colour analysis, layout and compositing

    A shallow embedding of [src/APP2/buffer/design.py]
    ([SmartColorPinterestGenerator]) and of the grid test of the browser
    variant in [src/APP2/buffer/template.py], with the properties of the
    specification stated over it.

    Conventions of the embedding:
    - Python [float] and NumPy [float64] values are IEEE binary64 numbers,
      modelled by Rocq's primitive floats; literals such as [0.2] denote the
      nearest binary64 value, as in Python.
    - Python [int] is [Z].  NumPy [uint8] channels are [Z] values in
      [0, 255], with the eight-bit wrap-around written out where the
      operands stay [uint8].  The products of a channel with the luma
      weights 299, 587 and 114 are taken in a wide integer type, as under
      NumPy's value-based promotion of a [uint8] scalar with a Python [int],
      so they neither wrap nor raise.
    - A Python call either returns or raises: [outcome].
    - Pillow and NumPy calls that read or write pixels are outside the
      repository.  Their results enter the model as data (the sampled pixel
      array, the image size) or as Section variables (the colour parser, the
      text measure). *)

From Stdlib Require Import ZArith List Lia Bool String Ascii Sorting.Sorted.
From Stdlib Require Import Floats.PrimFloat Floats.FloatOps Floats.SpecFloat.
From Stdlib Require Import Numbers.Cyclic.Int63.Uint63.
From Stdlib Require Import DecimalString Sorting.Permutation.
Import ListNotations.

#[local] Set Warnings "-inexact-float".
#[local] Open Scope Z_scope.

(** ** Python values and control flow *)

Module Py.

(** The exceptions the modelled code can meet. *)
Inductive exn : Type :=
| ZeroDivisionError
| OverflowError
| ValueError (msg : string)
| OSError (msg : string).

(** A call returns a value or raises. *)
Inductive outcome (A : Type) : Type :=
| Returned (a : A)
| Raised (e : exn).
Arguments Returned {A} a.
Arguments Raised {A} e.

Definition bind {A B : Type} (c : outcome A) (k : A -> outcome B) : outcome B :=
  match c with
  | Returned a => k a
  | Raised e => Raised e
  end.

Module Notations.
Notation "x <- c ;; k" := (bind c (fun x => k))
  (at level 61, c at next level, right associativity).
End Notations.

(** [float(n)] for an integer in the exactly representable range. *)
Definition of_int (z : Z) : float := PrimFloat.of_uint63 (Uint63.of_Z z).

(** [int(x)]: truncation towards zero; Python raises on infinities and
    NaN. *)
Definition int (x : float) : outcome Z :=
  match Prim2SF x with
  | S754_zero _ => Returned 0
  | S754_finite s m e =>
      let v := if 0 <=? e then Z.pos m * 2 ^ e else Z.pos m / 2 ^ (- e) in
      Returned (if s then - v else v)
  | S754_infinity _ => Raised OverflowError
  | S754_nan => Raised (ValueError "cannot convert float NaN to integer")
  end.

(** [a / b] on Python floats: raises on a zero divisor. *)
Definition truediv (a b : float) : outcome float :=
  if PrimFloat.eqb b 0%float then Raised ZeroDivisionError
  else Returned (PrimFloat.div a b).

(** [a < b], [a <= b] on floats. *)
Definition lt (a b : float) : bool := PrimFloat.ltb a b.
Definition le (a b : float) : bool := PrimFloat.leb a b.

(** [str.upper()] on the ASCII range. *)
Definition upper_ascii (c : ascii) : ascii :=
  let n := nat_of_ascii c in
  if (andb (Nat.leb 97 n) (Nat.leb n 122)) then ascii_of_nat (n - 32) else c.

Fixpoint upper (s : string) : string :=
  match s with
  | EmptyString => EmptyString
  | String c t => String (upper_ascii c) (upper t)
  end.

(** Lower-case hexadecimal digits of a non-negative integer, as the format
    code [x] prints them. *)
Definition hex_digit (d : Z) : ascii :=
  nth (Z.to_nat d)
    ["0"; "1"; "2"; "3"; "4"; "5"; "6"; "7"; "8"; "9";
     "a"; "b"; "c"; "d"; "e"; "f"]%char "0"%char.

Fixpoint hex_from (fuel : nat) (v : Z) (acc : string) : string :=
  match fuel with
  | O => acc
  | S fuel' =>
      let acc' := String (hex_digit (v mod 16)) acc in
      if v / 16 =? 0 then acc' else hex_from fuel' (v / 16) acc'
  end.

Definition format_x (v : Z) : string :=
  hex_from (S (Z.to_nat (Z.log2 v))) v EmptyString.

(** The format code [02x]: at least two digits, zero padded. *)
Definition format_02x (v : Z) : string :=
  let s := format_x v in
  if Nat.ltb (String.length s) 2 then String "0"%char s else s.

End Py.

Import Py.Notations.

(** ** Configuration: [SmartColorPinterestGenerator.__init__] *)

Definition canvas_width : Z := 735.
Definition canvas_height : Z := 1102.
Definition top_image_height : Z := 400.
Definition banner_height : Z := 120.
Definition bottom_image_height : Z :=
  canvas_height - top_image_height - banner_height.
Definition default_color : string := "#FF9800".
Definition text_color : string := "#FFFFFF".

(** ** ColorAnalyzer: [detect_dominant_color] *)

(** One row of the pixel array: three [uint8] channels. *)
Record rgb : Type := RGB { red : Z; green : Z; blue : Z }.

Definition uint8 (v : Z) : Prop := 0 <= v < 256.
Definition wf_pixel (p : rgb) : Prop :=
  uint8 (red p) /\ uint8 (green p) /\ uint8 (blue p).

Definition wrap8 (v : Z) : Z := v mod 256.

Module ColorAnalyzer.

(** [(pixels[:, 0] > 240) & (pixels[:, 1] > 240) & (pixels[:, 2] > 240)] *)
Definition very_light (p : rgb) : bool :=
  (240 <? red p) && (240 <? green p) && (240 <? blue p).

(** [filtered_pixels = pixels[mask]] with [mask] the negation above. *)
Definition filtered (pixels : list rgb) : list rgb :=
  filter (fun p => negb (very_light p)) pixels.

(** [(v // 32) * 32] in eight-bit arithmetic. *)
Definition group_channel (v : Z) : Z := wrap8 ((v / 32) * 32).

Definition group (p : rgb) : rgb :=
  RGB (group_channel (red p)) (group_channel (green p))
      (group_channel (blue p)).

(** Row order of [np.unique(..., axis=0)]: lexicographic. *)
Definition compare_rgb (a b : rgb) : comparison :=
  match red a ?= red b with
  | Eq => match green a ?= green b with
          | Eq => blue a ?= blue b
          | c => c
          end
  | c => c
  end.

(** Insert one row into the sorted table of distinct rows and counts. *)
Fixpoint tally (k : rgb) (t : list (rgb * Z)) : list (rgb * Z) :=
  match t with
  | [] => [(k, 1)]
  | (k', c) :: rest =>
      match compare_rgb k k' with
      | Lt => (k, 1) :: t
      | Eq => (k', c + 1) :: rest
      | Gt => (k', c) :: tally k rest
      end
  end.

Definition unique_table (rows : list rgb) : list (rgb * Z) :=
  fold_right tally [] rows.

(** [np.unique(rows, axis=0, return_counts=True)]: the sorted distinct
    rows and, in the same order, how often each occurs. *)
Definition np_unique (rows : list rgb) : list rgb * list Z :=
  split (unique_table rows).

Definition max3 (r g b : Z) : Z := Z.max (Z.max r g) b.
Definition min3 (r g b : Z) : Z := Z.min (Z.min r g) b.

(** [0 if max_val == 0 else (max_val - min_val) / max_val] *)
Definition saturation (c : rgb) : float :=
  let max_val := max3 (red c) (green c) (blue c) in
  let min_val := min3 (red c) (green c) (blue c) in
  if max_val =? 0 then 0%float
  else (Py.of_int (wrap8 (max_val - min_val)) / Py.of_int max_val)%float.

(** The weighted channel sum [r * 299 + g * 587 + b * 114]. *)
Definition luma1000 (r g b : Z) : Z := r * 299 + g * 587 + b * 114.

(** [(r * 299 + g * 587 + b * 114) / 1000] *)
Definition brightness (r g b : Z) : float :=
  (Py.of_int (luma1000 r g b) / 1000)%float.

Definition bucket_brightness (c : rgb) : float :=
  brightness (red c) (green c) (blue c).

(** [saturation * 0.6 + (brightness / 255) * 0.2
     + (count / len(filtered_pixels)) * 0.2] *)
Definition vibrancy_score (c : rgb) (count total : Z) : float :=
  (saturation c * 0.6 + (bucket_brightness c / 255) * 0.2
   + (Py.of_int count / Py.of_int total) * 0.2)%float.

(** [80 < brightness < 200 and saturation > 0.2] *)
Definition eligible (c : rgb) : bool :=
  Py.lt 80 (bucket_brightness c) && Py.lt (bucket_brightness c) 200
  && Py.lt 0.2 (saturation c).

(** Loop state: [best_color] and [best_score]. *)
Definition best : Type := option rgb * float.

Definition initial_best : best := (None, 0%float).

(** One iteration of the loop over [zip(unique_colors, counts)]. *)
Definition consider (total : Z) (st : best) (entry : rgb * Z) : best :=
  let '(color, count) := entry in
  if eligible color && Py.lt (snd st) (vibrancy_score color count total)
  then (Some color, vibrancy_score color count total)
  else st.

Definition select (total : Z) (entries : list (rgb * Z)) : best :=
  fold_left (consider total) entries initial_best.

(** [min(255, int(v * factor))] *)
Definition scale_channel (v : Z) (factor : float) : Py.outcome Z :=
  n <- Py.int (Py.of_int v * factor)%float ;;
  Py.Returned (Z.min 255 n).

Definition enhancement_factor : float := 1.2%float.

(** Lines 89-103: enhancement, then the minimum-brightness boost. *)
Definition post_process (c : rgb) : Py.outcome rgb :=
  r <- scale_channel (red c) enhancement_factor ;;
  g <- scale_channel (green c) enhancement_factor ;;
  b <- scale_channel (blue c) enhancement_factor ;;
  if Py.lt (brightness r g b) 120 then
    boost <- Py.truediv 120 (brightness r g b) ;;
    r' <- scale_channel r boost ;;
    g' <- scale_channel g boost ;;
    b' <- scale_channel b boost ;;
    Py.Returned (RGB r' g' b')
  else Py.Returned (RGB r g b).

(** [f"#{r:02x}{g:02x}{b:02x}".upper()] *)
Definition hex_color (c : rgb) : string :=
  Py.upper ("#" ++ Py.format_02x (red c) ++ Py.format_02x (green c)
                ++ Py.format_02x (blue c)).

(** The body of the [try] block from the point where the pixel array is
    at hand.  [Returned (Some s)] is a [return s] inside the block,
    [Returned None] is falling out of it. *)
Definition analyze_pixels (pixels : list rgb) : Py.outcome (option string) :=
  let filtered_pixels := filtered pixels in
  if Z.of_nat (List.length filtered_pixels) =? 0 then
    Py.Returned (Some default_color)
  else
    let grouped_pixels := map group filtered_pixels in
    let '(unique_colors, counts) := np_unique grouped_pixels in
    let '(best_color, _) :=
      select (Z.of_nat (List.length filtered_pixels))
             (combine unique_colors counts) in
    match best_color with
    | Some c =>
        c' <- post_process c ;;
        Py.Returned (Some (hex_color c'))
    | None => Py.Returned None
    end.

(** [sampled] is the outcome of lines 44-50 (resize to 100x100, array
    conversion, reshape to rows of three): the pixel rows, or the
    exception the imaging library raised. *)
Definition try_block (sampled : Py.outcome (list rgb))
  : Py.outcome (option string) :=
  pixels <- sampled ;;
  analyze_pixels pixels.

(** The whole method: [try: ... except Exception: print(...)] followed by
    [return self.default_color]. *)
Definition detect_dominant_color (sampled : Py.outcome (list rgb))
  : Py.outcome string :=
  match try_block sampled with
  | Py.Returned (Some hex) => Py.Returned hex
  | Py.Returned None => Py.Returned default_color
  | Py.Raised _ => Py.Returned default_color
  end.

End ColorAnalyzer.

(** ** LayoutPlanner: grid test, band sources and fit *)

(** A decoded source image: its size and what lines 44-50 of
    [detect_dominant_color] obtain from it. *)
Record image : Type := Image {
  width : Z;
  height : Z;
  sampled : Py.outcome (list rgb)
}.

Module LayoutPlanner.

(** [a / b] on Python integers (sizes are below 2^53, so the quotient of
    the converted operands is the correctly rounded one). *)
Definition int_truediv (a b : Z) : Py.outcome float :=
  if b =? 0 then Py.Raised Py.ZeroDivisionError
  else Py.Returned (Py.of_int a / Py.of_int b)%float.

(** design.py, lines 164-165: [0.8 <= aspect_ratio <= 1.25]. *)
Definition is_grid (w h : Z) : Py.outcome bool :=
  aspect_ratio <- int_truediv w h ;;
  Py.Returned (Py.le 0.8 aspect_ratio && Py.le aspect_ratio 1.25).

(** template.py, lines 144-145: [aspectRatio > 0.8 && aspectRatio < 1.25]
    on JavaScript numbers, where a division by zero yields an infinity or
    NaN instead of raising. *)
Definition isGrid (w h : Z) : bool :=
  let aspectRatio := (Py.of_int w / Py.of_int h)%float in
  PrimFloat.ltb 0.8 aspectRatio && PrimFloat.ltb aspectRatio 1.25.

(** A crop box [(left, upper, right, lower)] in source coordinates. *)
Record box : Type := Box { left : Z; upper : Z; right : Z; lower : Z }.

(** An image cut out of the source: its size and where it came from. *)
Record picture : Type := Picture {
  pic_width : Z;
  pic_height : Z;
  pic_source : box
}.

Definition whole (img : image) : picture :=
  Picture (width img) (height img) (Box 0 0 (width img) (height img)).

(** [source_img.crop(b)] *)
Definition crop (b : box) : picture :=
  Picture (right b - left b) (lower b - upper b) b.

(** Lines 167-185: which part of the source feeds each image band. *)
Definition band_sources (img : image) : Py.outcome (picture * picture) :=
  grid <- is_grid (width img) (height img) ;;
  if (grid : bool) then
    let grid_width := width img / 2 in
    let grid_height := height img / 2 in
    Py.Returned
      (crop (Box 0 0 grid_width grid_height),
       crop (Box grid_width grid_height (width img) (height img)))
  else Py.Returned (whole img, whole img).

(** [int(canvas_width / (p.width / p.height))] *)
Definition scaled_height (p : picture) : Py.outcome Z :=
  aspect <- int_truediv (pic_width p) (pic_height p) ;;
  q <- Py.truediv (Py.of_int canvas_width) aspect ;;
  Py.int q.

(** How the resized picture is brought to the band height. *)
Inductive fit : Type :=
| CropToFill (crop_start : Z)
| Letterbox (paste_y : Z).

(** The finished band image handed to [canvas.paste]. *)
Record band : Type := Band {
  band_source : box;
  band_scaled_height : Z;
  band_fit : fit;
  band_width : Z;
  band_height : Z
}.

End LayoutPlanner.

(** ** TemplateComposer: [create_color_matched_template] *)

Module TemplateComposer.
Import LayoutPlanner.

(** [manual_color or self.default_color]: [None] and the empty string are
    falsy. *)
Definition manual_or_default (manual_color : option string) : string :=
  match manual_color with
  | None => default_color
  | Some EmptyString => default_color
  | Some s => s
  end.

(** Lines 153-158. *)
Definition resolve_color (source_img : image) (use_auto_color : bool)
    (manual_color : option string) : Py.outcome string :=
  if use_auto_color
  then ColorAnalyzer.detect_dominant_color (sampled source_img)
  else Py.Returned (manual_or_default manual_color).

(** Which band an image pasted on the canvas belongs to. *)
Inductive slot : Type := TopSlot | BottomSlot.

(** The canvas is white at creation and then only drawn upon: it is the
    list of drawing calls in execution order. *)
Inductive draw_op : Type :=
| Paste (s : slot) (b : band) (x y : Z)
| Rectangle (x0 y0 x1 y1 : Z) (fill : string)
| Text (x y : Z) (line : string) (fill : string).

Definition canvas : Type := list draw_op.

(** [str.split()]: the separators in the ASCII range. *)
Definition is_space (c : ascii) : bool :=
  let n := nat_of_ascii c in
  (Nat.leb 9 n && Nat.leb n 13) || (Nat.leb 28 n && Nat.leb n 32).

Definition nonempty (s : string) : bool :=
  match s with EmptyString => false | String _ _ => true end.

Fixpoint split_from (s : string) (word : string) : list string :=
  match s with
  | EmptyString => if nonempty word then [word] else []
  | String c t =>
      if is_space c then
        if nonempty word then word :: split_from t EmptyString
        else split_from t EmptyString
      else split_from t (word ++ String c EmptyString)
  end.

Definition split (s : string) : list string := split_from s EmptyString.

(** [range(start, stop, step)] for a positive step. *)
Fixpoint range_from (fuel : nat) (start stop step : Z) : list Z :=
  match fuel with
  | O => []
  | S fuel' =>
      if start <? stop then start :: range_from fuel' (start + step) stop step
      else []
  end.

Definition range (start stop step : Z) : list Z :=
  range_from (Z.to_nat (stop - start)) start stop step.

Section Drawing.

(** Pillow's colour parser, applied to every [fill] and to the
    background of [Image.new]. *)
Variable getrgb : string -> Py.outcome rgb.

(** [bbox[2] - bbox[0]] of [draw.textbbox((0, 0), s, font=font)]. *)
Variable text_width : string -> Z.

(** [Image.new('RGB', size, color)] *)
Definition new_image (color : string) : Py.outcome unit :=
  _ <- getrgb color ;; Py.Returned tt.

(** [p.resize((w, h), LANCZOS)]: Pillow rejects an empty target. *)
Definition resize (w h : Z) : Py.outcome unit :=
  if (w <? 1) || (h <? 1)
  then Py.Raised (Py.ValueError "height and width must be > 0")
  else Py.Returned tt.

(** Lines 188-202 and 207-224: scale to the canvas width, then crop
    from the centre or centre on a white band. *)
Definition fit_band (target_height : Z) (p : picture) : Py.outcome band :=
  scaled <- scaled_height p ;;
  _ <- resize canvas_width scaled ;;
  if scaled >=? target_height then
    let crop_start := (scaled - target_height) / 2 in
    let final := crop (Box 0 crop_start canvas_width
                           (crop_start + target_height)) in
    Py.Returned (Band (pic_source p) scaled (CropToFill crop_start)
                      (pic_width final) (pic_height final))
  else
    _ <- new_image "white" ;;
    let paste_y := (target_height - scaled) / 2 in
    Py.Returned (Band (pic_source p) scaled (Letterbox paste_y)
                      canvas_width target_height).

(** [draw.rectangle([x0, y0, x1, y1], fill=fill)] *)
Definition draw_rectangle (cv : canvas) (x0 y0 x1 y1 : Z) (fill : string)
  : Py.outcome canvas :=
  _ <- getrgb fill ;; Py.Returned (cv ++ [Rectangle x0 y0 x1 y1 fill]).

(** [draw.text((x, y), line, font=font, fill=fill)] *)
Definition draw_text (cv : canvas) (x y : Z) (line fill : string)
  : Py.outcome canvas :=
  _ <- getrgb fill ;; Py.Returned (cv ++ [Text x y line fill]).

(** A loop whose body may raise. *)
Fixpoint for_each {A S : Type} (body : S -> A -> Py.outcome S)
    (xs : list A) (st : S) : Py.outcome S :=
  match xs with
  | [] => Py.Returned st
  | x :: rest => st' <- body st x ;; for_each body rest st'
  end.

(** Lines 241-250: the two dotted lines. *)
Definition dotted_line (y0 y1 : Z) (cv : canvas) : Py.outcome canvas :=
  let dot_size := 4 in
  let dot_spacing := 12 in
  let margin := 20 in
  for_each (fun cv x => draw_rectangle cv x y0 (x + dot_size) y1 "white")
           (range margin (canvas_width - margin) dot_spacing) cv.

Definition max_width : Z := canvas_width - 80.

(** Lines 262-271: one word of the wrapping loop; the state is
    [(lines, current_line)]. *)
Definition wrap_word (st : list string * string) (word : string)
  : list string * string :=
  let '(lines, current_line) := st in
  let test_line :=
    (current_line ++ (if nonempty current_line then " " else "") ++ word)%string in
  if (max_width <? text_width test_line) && nonempty current_line
  then (lines ++ [current_line], word)
  else (lines, test_line).

(** Lines 259-274. *)
Definition wrap (words : list string) : list string :=
  let '(lines, current_line) := fold_left wrap_word words ([], EmptyString) in
  if nonempty current_line then lines ++ [current_line] else lines.

(** Lines 257-274: [title.upper().split()], wrapped. *)
Definition text_layout (title : string) : list string :=
  wrap (split (Py.upper title)).

(** Lines 282-291: one line of text with its two shadows. *)
Definition draw_line (start_y : Z) (cv : canvas) (entry : Z * string)
  : Py.outcome canvas :=
  let '(i, line) := entry in
  let line_height := 42 in
  let x := (canvas_width - text_width line) / 2 in
  let y := start_y + i * line_height in
  cv1 <- draw_text cv (x + 3) (y + 3) line "rgba(0,0,0,0.5)" ;;
  cv2 <- draw_text cv1 (x + 1) (y + 1) line "rgba(0,0,0,0.3)" ;;
  draw_text cv2 x y line text_color.

(** [enumerate(lines)] *)
Fixpoint enumerate_from {A : Type} (i : Z) (xs : list A) : list (Z * A) :=
  match xs with
  | [] => []
  | x :: rest => (i, x) :: enumerate_from (i + 1) rest
  end.

(** The method.  [opened] is the outcome of
    [Image.open(path).convert('RGB')]. *)
Definition create_color_matched_template (opened : Py.outcome image)
    (title : string) (use_auto_color : bool) (manual_color : option string)
  : Py.outcome (canvas * string) :=
  source_img <- opened ;;
  detected_color <- resolve_color source_img use_auto_color manual_color ;;
  _ <- new_image "white" ;;
  sources <- band_sources source_img ;;
  let '(top_image, bottom_image) := sources in
  top_final <- fit_band top_image_height top_image ;;
  let cv1 := [Paste TopSlot top_final 0 0] in
  bottom_final <- fit_band bottom_image_height bottom_image ;;
  let bottom_y := top_image_height + banner_height in
  let cv2 := cv1 ++ [Paste BottomSlot bottom_final 0 bottom_y] in
  let banner_y := top_image_height in
  cv3 <- draw_rectangle cv2 0 banner_y canvas_width
                        (banner_y + banner_height) detected_color ;;
  cv4 <- dotted_line (banner_y + 15) (banner_y + 15 + 4) cv3 ;;
  cv5 <- dotted_line (banner_y + banner_height - 19)
                     (banner_y + banner_height - 15) cv4 ;;
  let lines := text_layout title in
  let line_height := 42 in
  let total_text_height := Z.of_nat (List.length lines) * line_height in
  let start_y := banner_y + (banner_height - total_text_height) / 2 in
  cv6 <- for_each (draw_line start_y) (enumerate_from 0 lines) cv5 ;;
  Py.Returned (cv6, detected_color).

End Drawing.

(** *** Reading the canvas back, row by row *)

(** What a canvas row shows in the band layout. *)
Inductive paint : Type :=
| White
| BandImage (s : slot)
| Fill (color : string).

(** The rows a drawing call touches.  [canvas.paste] covers the height of
    the pasted image; [draw.rectangle] includes both corner rows. *)
Definition covers (op : draw_op) (y : Z) : bool :=
  match op with
  | Paste _ b _ y0 => (y0 <=? y) && (y <? y0 + band_height b)
  | Rectangle _ y0 _ y1 _ => (y0 <=? y) && (y <=? y1)
  | Text _ _ _ _ => false
  end.

(** Full-width calls decide the band a row shows; the dots and the text
    are overlays. *)
Definition full_width (op : draw_op) : bool :=
  match op with
  | Paste _ b x _ => (x <=? 0) && (canvas_width <=? x + band_width b)
  | Rectangle x0 _ x1 _ _ => (x0 <=? 0) && (canvas_width - 1 <=? x1)
  | Text _ _ _ _ => false
  end.

Definition paint_of (op : draw_op) : paint :=
  match op with
  | Paste s _ _ _ => BandImage s
  | Rectangle _ _ _ _ fill => Fill fill
  | Text _ _ _ fill => Fill fill
  end.

(** The last full-width call that touches row [y] wins. *)
Definition row_paint (cv : canvas) (y : Z) : paint :=
  fold_left
    (fun shown op => if full_width op && covers op y then paint_of op else shown)
    cv White.

(** The rows of the canvas a call touches, as a list. *)
Definition rows_of (op : draw_op) : list Z :=
  filter (covers op) (range 0 canvas_height 1).

(** The browser variant paints the banner with
    [fillRect(0, bannerY, canvas.width, bannerHeight)]: rows
    [bannerY <= y < bannerY + bannerHeight]. *)
Definition fillRect_covers (y0 h : Z) (y : Z) : bool :=
  (y0 <=? y) && (y <? y0 + h).

End TemplateComposer.

(** *** Instances used in the worked examples *)

Module Examples.

Definition hex_value (c : ascii) : option Z :=
  let n := Z.of_nat (nat_of_ascii c) in
  if (48 <=? n) && (n <=? 57) then Some (n - 48)
  else if (97 <=? n) && (n <=? 102) then Some (n - 87)
  else if (65 <=? n) && (n <=? 70) then Some (n - 55)
  else None.

Definition hex_pair (hi lo : ascii) : option Z :=
  match hex_value hi, hex_value lo with
  | Some h, Some l => Some (16 * h + l)
  | _, _ => None
  end.

(** The colour a specifier of the form [#RRGGBB] denotes. *)
Definition rrggbb (s : string) : option rgb :=
  match s with
  | String "#" (String r1 (String r0 (String g1 (String g0
      (String b1 (String b0 EmptyString)))))) =>
      match hex_pair r1 r0, hex_pair g1 g0, hex_pair b1 b0 with
      | Some r, Some g, Some b => Some (RGB r g b)
      | _, _, _ => None
      end
  | _ => None
  end.

(** A parser that takes [#RRGGBB] and the name [white], and rejects
    everything else. *)
Definition strict_getrgb (s : string) : Py.outcome rgb :=
  match rrggbb s with
  | Some c => Py.Returned c
  | None =>
      if (s =? "white")%string then Py.Returned (RGB 255 255 255)
      else Py.Raised (Py.ValueError ("unknown color specifier: " ++ s))
  end.

(** A monospaced measure: 22 pixels a character. *)
Definition mono_width (s : string) : Z := 22 * Z.of_nat (String.length s).

Definition landscape : image :=
  Image 1600 900 (Py.Returned (repeat (RGB 230 10 130) (Z.to_nat 10000))).

Definition square : image :=
  Image 801 801 (Py.Returned (repeat (RGB 230 10 130) (Z.to_nat 10000))).

End Examples.

(** ** Auxiliary definitions for the proofs *)

Module Facts.
Import ColorAnalyzer.

(** The values a grouped channel can take, and the 512 buckets. *)
Definition steps : list Z := [0; 32; 64; 96; 128; 160; 192; 224].

Definition all_buckets : list rgb :=
  flat_map
    (fun r => flat_map (fun g => map (fun b => RGB r g b) steps) steps)
    steps.

Definition same_rgb (a b : rgb) : bool :=
  match compare_rgb a b with Eq => true | _ => false end.

Definition lt_rgb (a b : rgb) : Prop := compare_rgb a b = Lt.

Definition keys (t : list (rgb * Z)) : list rgb := map fst t.

(** The count the table holds for a row, 0 when the row is absent. *)
Fixpoint table_count (k : rgb) (t : list (rgb * Z)) : Z :=
  match t with
  | [] => 0
  | (k', c) :: rest => if same_rgb k k' then c else table_count k rest
  end.

(** How often a row occurs in an array. *)
Definition occurrences (k : rgb) (rows : list rgb) : Z :=
  Z.of_nat (List.length (filter (same_rgb k) rows)).

(** How many sampled pixels fall into a bucket. *)
Definition count_in_bucket (bucket : rgb) (pixels : list rgb) : Z :=
  occurrences bucket (map group pixels).

(** A pixel of saturation at most 0.2, measured on the pixel itself. *)
Definition desaturated (p : rgb) : bool :=
  Py.le (saturation p) 0.2.

(** A pixel whose bucket (each channel floored to a multiple of 32) has
    saturation at most 0.2: the saturation the analyzer tests. *)
Definition bucket_desaturated (p : rgb) : bool :=
  Py.le (saturation (group p)) 0.2.

(** The numbers of kept pixels a 40% patch of a 100x100 sample can
    meet: between 4000 and 10000. *)
Definition totals : list Z :=
  map (fun i => 4000 + Z.of_nat i) (seq 0 (Z.to_nat 6001)).

(** The score without its frequency term, and the frequency term. *)
Definition score_base (b : rgb) : float :=
  (saturation b * 0.6 + (bucket_brightness b / 255) * 0.2)%float.

Definition share_term (count total : Z) : float :=
  ((Py.of_int count / Py.of_int total) * 0.2)%float.

(** An eligible bucket scores above 0 with each of the frequency terms. *)
Definition scores_positive (terms : list float) (b : rgb) : bool :=
  implb (eligible b)
        (let base := score_base b in
         forallb (fun s => Py.lt 0 (base + s)%float) terms).

(** The line a group of words is joined into by the wrapping loop. *)
Definition add_word (line word : string) : string :=
  (line ++ (if TemplateComposer.nonempty line then " " else "") ++ word)%string.

Definition line_of (words : list string) : string :=
  fold_left add_word words EmptyString.

(** A measure under which a line is at least as wide as its last word and
    as the line it extends. *)
Definition monotone (text_width : string -> Z) : Prop :=
  forall line word,
    text_width line <= text_width (add_word line word) /\
    text_width word <= text_width (add_word line word).

(** A group of several words fits the banner. *)
Definition fits (text_width : string -> Z) (g : list string) : Prop :=
  (2 <= List.length g)%nat ->
  text_width (line_of g) <= TemplateComposer.max_width.

(** A word wider than the banner has its group to itself. *)
Definition alone (text_width : string -> Z) (g : list string) : Prop :=
  forall w, In w g -> TemplateComposer.max_width < text_width w -> g = [w].

(** The line of [g] could not take the first word of the next line: with
    it the line is wider than the banner allows. *)
Definition break_forced (text_width : string -> Z) (g next : list string)
  : Prop :=
  match next with
  | w :: _ =>
      TemplateComposer.max_width < text_width (add_word (line_of g) w)
  | [] => True
  end.

(** Every line break is forced: each line but the last could not take the
    first word of the line that follows it. *)
Fixpoint forced_breaks (text_width : string -> Z)
    (groups : list (list string)) : Prop :=
  match groups with
  | [] => True
  | g :: rest =>
      match rest with
      | next :: _ => break_forced text_width g next
      | [] => True
      end
      /\ forced_breaks text_width rest
  end.

(** The state [(lines, current_line)] of the wrapping loop against the
    groups of words already closed and the group of the current line. *)
Record wrap_inv (text_width : string -> Z) (st : list string * string)
    (closed : list (list string)) (g : list string) : Prop := WrapInv {
  inv_lines : fst st = map line_of closed;
  inv_current : snd st = line_of g;
  inv_empty : TemplateComposer.nonempty (snd st) = false -> g = [];
  inv_started : g <> [] -> TemplateComposer.nonempty (snd st) = true;
  inv_closed_nonempty : Forall (fun g => g <> []) closed;
  inv_closed_fit : Forall (fits text_width) closed;
  inv_fit : fits text_width g;
  inv_first : g = [] -> closed = [];
  inv_forced : forced_breaks text_width (closed ++ [g]);
  inv_alone :
    monotone text_width ->
    Forall (alone text_width) closed /\ alone text_width g
}.

Definition returned {A : Type} (c : Py.outcome A) : bool :=
  match c with Py.Returned _ => true | Py.Raised _ => false end.

(** The specifiers the method passes besides the banner colour: the
    background and the dots, and the shadows and the text colour when there
    is a line to draw. *)
Definition text_fills : list string :=
  ["rgba(0,0,0,0.5)"; "rgba(0,0,0,0.3)"; text_color]%string.

Definition constant_fills (text_width : string -> Z) (title : string)
  : list string :=
  "white"%string
  :: match TemplateComposer.text_layout text_width title with
     | [] => []
     | _ :: _ => text_fills
     end.

(** A colour parser takes each of the given specifiers. *)
Definition accepts (getrgb : string -> Py.outcome rgb) (fills : list string)
  : Prop :=
  forall s, In s fills -> returned (getrgb s) = true.

(** The luma, in thousandths, of the colour [post_process] emits. *)
Definition emitted_luma1000 (bucket : rgb) : Py.outcome Z :=
  c <- post_process bucket ;;
  Py.Returned (luma1000 (red c) (green c) (blue c)).

End Facts.

(** ** The browser variant of the analyzer: [detectDominantColor] in
    template.py *)

(** One pixel of [imageData.data]: four bytes, red, green, blue, alpha. *)
Record rgba : Type := RGBA { color : rgb; alpha : Z }.

Definition wf_rgba (p : rgba) : Prop := wf_pixel (color p) /\ uint8 (alpha p).

Module BrowserAnalyzer.

(** [Math.floor] of a finite number (the products below are finite). *)
Definition floor (x : float) : Z :=
  match Prim2SF x with
  | S754_finite s m e =>
      let n := if s then Z.neg m else Z.pos m in
      if 0 <=? e then n * 2 ^ e else n / 2 ^ (- e)
  | _ => 0
  end.

(** [for (let i = 0; i < pixels.length; i += 16)]: the byte index advances
    by four pixels, so the loop visits the pixels 0, 4, 8, ... *)
Fixpoint stride (skip : nat) (pixels : list rgba) : list rgba :=
  match pixels with
  | [] => []
  | p :: rest =>
      match skip with
      | O => p :: stride 3 rest
      | S k => stride k rest
      end
  end.

Definition visited (pixels : list rgba) : list rgba := stride 0 pixels.

(** [a < 128 || (r > 240 && g > 240 && b > 240)] *)
Definition skipped (p : rgba) : bool :=
  (alpha p <? 128)
  || ((240 <? red (color p)) && (240 <? green (color p))
      && (240 <? blue (color p))).

(** [Math.floor(v / 32) * 32] *)
Definition group_channel (v : Z) : Z := floor (Py.of_int v / 32)%float * 32.

Definition group (c : rgb) : rgb :=
  RGB (group_channel (red c)) (group_channel (green c))
      (group_channel (blue c)).

(** [colorMap[colorKey] = (colorMap[colorKey] || 0) + 1]: the object keeps
    its keys, the strings ["r,g,b"], in the order of their first
    insertion; a key stands for its three numbers. *)
Fixpoint bump (k : rgb) (m : list (rgb * Z)) : list (rgb * Z) :=
  match m with
  | [] => [(k, 1)]
  | (k', c) :: rest =>
      if Facts.same_rgb k k' then (k', c + 1) :: rest
      else (k', c) :: bump k rest
  end.

Definition count_pixel (m : list (rgb * Z)) (p : rgba) : list (rgb * Z) :=
  if skipped p then m else bump (group (color p)) m.

Definition colorMap (pixels : list rgba) : list (rgb * Z) :=
  fold_left count_pixel (visited pixels) [].

(** [max === 0 ? 0 : (max - min) / max] *)
Definition saturation (c : rgb) : float :=
  let max := ColorAnalyzer.max3 (red c) (green c) (blue c) in
  let min := ColorAnalyzer.min3 (red c) (green c) (blue c) in
  if max =? 0 then 0%float else (Py.of_int (max - min) / Py.of_int max)%float.

(** [saturation > 0.2 && max > 80] *)
Definition vibrant (c : rgb) : bool :=
  PrimFloat.ltb 0.2 (saturation c)
  && (80 <? ColorAnalyzer.max3 (red c) (green c) (blue c)).

(** One entry of [Object.entries(colorMap)]; the state is
    [(dominantColor, maxCount)]. *)
Definition pick (st : option rgb * Z) (entry : rgb * Z) : option rgb * Z :=
  let '(k, count) := entry in
  if snd st <? count then
    if vibrant k then (Some k, count) else st
  else st.

Definition most_frequent (m : list (rgb * Z)) : option rgb * Z :=
  fold_left pick m (None, 0).

(** [Math.min(255, Math.floor(v * factor))] *)
Definition scale_channel (v : Z) (factor : float) : Z :=
  Z.min 255 (floor (Py.of_int v * factor)%float).

(** Lines 76-91: the factor 1.3, then 1.4 when the brightness is below
    100. *)
Definition enhance (c : rgb) : rgb :=
  let r := scale_channel (red c) 1.3 in
  let g := scale_channel (green c) 1.3 in
  let b := scale_channel (blue c) 1.3 in
  let brightness := (Py.of_int (r * 299 + g * 587 + b * 114) / 1000)%float in
  if PrimFloat.ltb brightness 100 then
    RGB (scale_channel r 1.4) (scale_channel g 1.4) (scale_channel b 1.4)
  else RGB r g b.

(** [`#${r.toString(16).padStart(2, '0')}...`] *)
Definition hex (c : rgb) : string :=
  ("#" ++ Py.format_02x (red c) ++ Py.format_02x (green c)
       ++ Py.format_02x (blue c))%string.

(** The function; [data] is the outcome of drawing the image on the
    100x100 canvas and reading its pixels back. *)
Definition detectDominantColor (data : Py.outcome (list rgba)) : string :=
  match data with
  | Py.Returned pixels =>
      match fst (most_frequent (colorMap pixels)) with
      | Some c => hex (enhance c)
      | None => "#FF9800"%string
      end
  | Py.Raised _ => "#FF9800"%string
  end.

End BrowserAnalyzer.

(** ** The automation entry points of design.py *)

Module Automation.
Import TemplateComposer.

(** [c.isalnum()] on the ASCII range. *)
Definition isalnum (c : ascii) : bool :=
  let n := nat_of_ascii c in
  (Nat.leb 48 n && Nat.leb n 57) || (Nat.leb 65 n && Nat.leb n 90)
  || (Nat.leb 97 n && Nat.leb n 122).

(** [c.isalnum() or c in (' ', '-', '_')] *)
Definition kept (c : ascii) : bool :=
  isalnum c || Ascii.eqb c " " || Ascii.eqb c "-" || Ascii.eqb c "_".

Fixpoint filter_chars (f : ascii -> bool) (s : string) : string :=
  match s with
  | EmptyString => EmptyString
  | String c t => if f c then String c (filter_chars f t) else filter_chars f t
  end.

(** [str.rstrip()] *)
Fixpoint rstrip (s : string) : string :=
  match s with
  | EmptyString => EmptyString
  | String c t =>
      match rstrip t with
      | EmptyString => if is_space c then EmptyString else String c EmptyString
      | t' => String c t'
      end
  end.

(** [s.replace(' ', '_')] *)
Fixpoint replace_spaces (s : string) : string :=
  match s with
  | EmptyString => EmptyString
  | String c t =>
      String (if Ascii.eqb c " " then "_"%char else c) (replace_spaces t)
  end.

(** Lines 360-361: the title made safe for a file name. *)
Definition safe_title (title : string) : string :=
  replace_spaces (substring 0 30 (rstrip (filter_chars kept title))).

(** [str(n)] for an integer. *)
Definition decimal (n : Z) : string := NilZero.string_of_int (Z.to_int n).

(** Line 362; [now] is [int(time.time())]. *)
Definition output_filename (title : string) (now : Z) : string :=
  ("pinterest_" ++ safe_title title ++ "_" ++ decimal now ++ ".png")%string.

(** The files written so far, oldest first: path and image. *)
Definition files : Type := list (string * canvas).

Section Files.

Variable getrgb : string -> Py.outcome rgb.
Variable text_width : string -> Z.

(** [os.path.join] and [os.makedirs(..., exist_ok=True)]. *)
Variable path_join : string -> string -> string.
Variable makedirs : string -> Py.outcome unit.

(** Whether [image.save(path, 'PNG', optimize=True)] can write [path]. *)
Variable can_write : string -> Py.outcome unit.

(** [save_template]: lines 295-298. *)
Definition save_template (image : canvas) (output_path : string) (fs : files)
  : Py.outcome unit * files :=
  match can_write output_path with
  | Py.Returned _ => (Py.Returned tt, fs ++ [(output_path, image)])
  | Py.Raised e => (Py.Raised e, fs)
  end.

(** Lines 347-370. *)
Definition generate_color_matched_pinterest_template
    (opened : Py.outcome image) (title output_dir : string) (now : Z)
    (fs : files) : Py.outcome (string * string) * files :=
  match makedirs output_dir with
  | Py.Raised e => (Py.Raised e, fs)
  | Py.Returned _ =>
      let output_path := path_join output_dir (output_filename title now) in
      match create_color_matched_template getrgb text_width opened title
              true None with
      | Py.Raised e => (Py.Raised e, fs)
      | Py.Returned (template, detected_color) =>
          match save_template template output_path fs with
          | (Py.Returned _, fs') =>
              (Py.Returned (output_path, detected_color), fs')
          | (Py.Raised e, fs') => (Py.Raised e, fs')
          end
      end
  end.

(** Lines 300-322; [if not output_path] takes [None] and the empty
    string. *)
Definition create_smart_color_template
    (opened : Py.outcome image) (title : string) (output_path : option string)
    (use_auto_color : bool) (manual_color : option string) (now : Z)
    (fs : files) : Py.outcome (string * string) * files :=
  let output_path :=
    match output_path with
    | None | Some EmptyString =>
        ("smart_pinterest_" ++ decimal now ++ ".png")%string
    | Some path => path
    end in
  match create_color_matched_template getrgb text_width opened title
          use_auto_color manual_color with
  | Py.Raised e => (Py.Raised e, fs)
  | Py.Returned (template, detected_color) =>
      match save_template template output_path fs with
      | (Py.Returned _, fs') => (Py.Returned (output_path, detected_color), fs')
      | (Py.Raised e, fs') => (Py.Raised e, fs')
      end
  end.

End Files.

End Automation.

(** ** Font loading: lines 113-133 of design.py *)

Module Fonts.

Definition font_paths : list string :=
  ["C:/Windows/Fonts/arialbd.ttf";
   "C:/Windows/Fonts/arial.ttf";
   "/System/Library/Fonts/Arial Bold.ttf";
   "/System/Library/Fonts/Arial.ttf";
   "/usr/share/fonts/truetype/dejavu/DejaVuSans-Bold.ttf"]%string.

Section Loading.

Variable font : Type.

(** [os.path.exists], [ImageFont.truetype] and [ImageFont.load_default]. *)
Variable path_exists : string -> bool.
Variable truetype : string -> Z -> Py.outcome font.
Variable load_default : Py.outcome font.

(** The loop: [try: if os.path.exists(p): return truetype(p, size)] with
    [except: continue]. *)
Fixpoint first_font (paths : list string) (size : Z) : option font :=
  match paths with
  | [] => None
  | font_path :: rest =>
      if path_exists font_path then
        match truetype font_path size with
        | Py.Returned f => Some f
        | Py.Raised _ => first_font rest size
        end
      else first_font rest size
  end.

Definition load_font (size : Z) : Py.outcome font :=
  match first_font font_paths size with
  | Some f => Py.Returned f
  | None => load_default
  end.

(** A path the loop returns from: the file exists and loads. *)
Definition usable (size : Z) (font_path : string) : bool :=
  path_exists font_path
  && match truetype font_path size with
     | Py.Returned _ => true
     | Py.Raised _ => false
     end.

End Loading.

End Fonts.

(** ** Auxiliary definitions for the further properties *)

Module MoreFacts.
Import TemplateComposer.

Fixpoint all_chars (f : ascii -> bool) (s : string) : bool :=
  match s with
  | EmptyString => true
  | String c t => f c && all_chars f t
  end.

(** A digit or one of A to F. *)
Definition upper_hex_digit (c : ascii) : bool :=
  let n := nat_of_ascii c in
  (Nat.leb 48 n && Nat.leb n 57) || (Nat.leb 65 n && Nat.leb n 70).

(** A digit or one of a to f. *)
Definition lower_hex_digit (c : ascii) : bool :=
  let n := nat_of_ascii c in
  (Nat.leb 48 n && Nat.leb n 57) || (Nat.leb 97 n && Nat.leb n 102).

(** A sharp sign followed by six digits of the given kind. *)
Definition hex_color_of (digit : ascii -> bool) (s : string) : bool :=
  match s with
  | String "#" rest => Nat.eqb (String.length rest) 6 && all_chars digit rest
  | _ => false
  end.

(** A character that can stand in a file name made by [safe_title]. *)
Definition filename_char (c : ascii) : bool :=
  Automation.isalnum c || Ascii.eqb c "-" || Ascii.eqb c "_".

(** The characters of a generated file name: the above and the dot. *)
Definition name_char (c : ascii) : bool :=
  filename_char c || Ascii.eqb c ".".

(** The dots of one dotted line. *)
Definition dots (y0 y1 : Z) : list draw_op :=
  map (fun x => Rectangle x y0 (x + 4) y1 "white")
      (range 20 (canvas_width - 20) 12).

(** The three drawing calls for line number [i] of [n]. *)
Definition line_ops (text_width : string -> Z) (n : Z) (entry : Z * string)
  : list draw_op :=
  let '(i, line) := entry in
  let x := (canvas_width - text_width line) / 2 in
  let y := top_image_height + (banner_height - n * 42) / 2 + i * 42 in
  [Text (x + 3) (y + 3) line "rgba(0,0,0,0.5)";
   Text (x + 1) (y + 1) line "rgba(0,0,0,0.3)";
   Text x y line text_color].

(** A character of the ASCII range, on which [isalnum] above is the
    test of [str.isalnum]. *)
Definition is_ascii (c : ascii) : bool := Nat.ltb (nat_of_ascii c) 128.

(** The 256 values of a byte. *)
Definition byte_values : list Z := map Z.of_nat (seq 0 256).

(** A pixel the browser loop cannot count as colourful: transparent or
    gray. *)
Definition transparent_or_gray (p : rgba) : Prop :=
  alpha p < 128 \/
  (red (color p) = green (color p) /\ green (color p) = blue (color p)).

(** [os.path.join] on a POSIX system, for a relative file name. *)
Definition posix_join (dir name : string) : string :=
  (dir ++ "/" ++ name)%string.

(** The buckets of the pixels the browser loop counts: those it does not
    skip. *)
Definition counted (l : list rgba) : list rgb :=
  map (fun p => BrowserAnalyzer.group (color p))
      (filter (fun p => negb (BrowserAnalyzer.skipped p)) l).

(** The number of a bucket's pixels among the visited, unskipped ones. *)
Definition browser_occurrences (k : rgb) (pixels : list rgba) : Z :=
  Facts.occurrences k (counted (BrowserAnalyzer.visited pixels)).

(** The state [(dominantColor, maxCount)] of the browser loop against the
    entries already seen. *)
Definition pick_inv (st : option rgb * Z) (seen : list (rgb * Z)) : Prop :=
  match st with
  | (None, mx) =>
      mx = 0 /\
      forall k n, In (k, n) seen -> BrowserAnalyzer.vibrant k = false
  | (Some w, mx) =>
      BrowserAnalyzer.vibrant w = true /\ In (w, mx) seen /\
      forall k n, In (k, n) seen -> BrowserAnalyzer.vibrant k = true -> n <= mx
  end.

End MoreFacts.

(** * Properties *)

(** ** Python helpers *)

Lemma bind_returned {A B : Type} (c : Py.outcome A) (k : A -> Py.outcome B) b :
  Py.bind c k = Py.Returned b ->
  exists a, c = Py.Returned a /\ k a = Py.Returned b.
Proof.
  destruct c as [a | e]; simpl; intros H; [eauto | discriminate].
Qed.

(** ** The table of [np.unique] *)

Module TableFacts.
Import ColorAnalyzer Facts.

Ltac cmp_cases :=
  repeat match goal with
  | |- context [?x ?= ?y] => destruct (Z.compare_spec x y)
  | H : context [?x ?= ?y] |- _ => destruct (Z.compare_spec x y)
  end.

Lemma compare_rgb_eq a b : compare_rgb a b = Eq <-> a = b.
Proof.
  destruct a as [r g b0], b as [r' g' b']; unfold compare_rgb; simpl.
  split.
  - cmp_cases; intros; subst; try discriminate; reflexivity.
  - intros E; injection E as -> -> ->. now rewrite !Z.compare_refl.
Qed.

Lemma same_rgb_true a b : same_rgb a b = true <-> a = b.
Proof.
  unfold same_rgb. rewrite <- compare_rgb_eq.
  destruct (compare_rgb a b); split; congruence.
Qed.

Lemma same_rgb_refl a : same_rgb a a = true.
Proof. now apply same_rgb_true. Qed.

Lemma same_rgb_false a b : same_rgb a b = false <-> a <> b.
Proof.
  rewrite <- same_rgb_true. destruct (same_rgb a b); split; congruence.
Qed.

Lemma lt_rgb_irrefl a : ~ lt_rgb a a.
Proof.
  unfold lt_rgb. intros H.
  assert (E : compare_rgb a a = Eq) by now apply compare_rgb_eq.
  congruence.
Qed.

Lemma lt_rgb_trans a b c : lt_rgb a b -> lt_rgb b c -> lt_rgb a c.
Proof.
  destruct a as [r1 g1 b1], b as [r2 g2 b2], c as [r3 g3 b3].
  unfold lt_rgb, compare_rgb; simpl.
  intros H1 H2.
  cmp_cases; subst; try discriminate; try reflexivity; try lia.
Qed.

Lemma compare_rgb_gt a b : compare_rgb a b = Gt -> lt_rgb b a.
Proof.
  destruct a as [r1 g1 b1], b as [r2 g2 b2].
  unfold lt_rgb, compare_rgb; simpl.
  intros H.
  cmp_cases; subst; try discriminate; try reflexivity; try lia.
Qed.

Definition sorted (t : list (rgb * Z)) : Prop :=
  StronglySorted lt_rgb (keys t).

Lemma keys_tally k t x :
  In x (keys (tally k t)) <-> x = k \/ In x (keys t).
Proof.
  induction t as [| [k' c] rest IH]; simpl.
  - intuition.
  - destruct (compare_rgb k k') eqn:E; simpl.
    + apply compare_rgb_eq in E. subst. intuition.
    + intuition.
    + rewrite IH. intuition.
Qed.

Lemma tally_sorted k t : sorted t -> sorted (tally k t).
Proof.
  unfold sorted.
  induction t as [| [k' c] rest IH]; simpl; intros S.
  - repeat constructor.
  - inversion S as [| ? ? Srest Hall]; subst.
    destruct (compare_rgb k k') eqn:E; simpl.
    + constructor; assumption.
    + constructor; [assumption |].
      constructor; [exact E |].
      eapply Forall_impl; [| exact Hall].
      intros x Hx. eapply lt_rgb_trans; eassumption.
    + constructor; [now apply IH |].
      apply Forall_forall. intros x Hx.
      apply keys_tally in Hx as [-> | Hx].
      * now apply compare_rgb_gt.
      * rewrite Forall_forall in Hall. now apply Hall.
Qed.

Lemma unique_table_sorted rows : sorted (unique_table rows).
Proof.
  induction rows as [| r rows IH]; simpl.
  - constructor.
  - now apply tally_sorted.
Qed.

Lemma keys_unique_table rows x :
  In x (keys (unique_table rows)) <-> In x rows.
Proof.
  induction rows as [| r rows IH]; simpl.
  - reflexivity.
  - rewrite keys_tally, IH. intuition.
Qed.

Lemma sorted_NoDup t : sorted t -> NoDup (keys t).
Proof.
  unfold sorted. induction (keys t) as [| k ks IH]; intros S.
  - constructor.
  - inversion S as [| ? ? Sks Hall]; subst.
    constructor; [| now apply IH].
    intros Hin. rewrite Forall_forall in Hall.
    exact (lt_rgb_irrefl k (Hall k Hin)).
Qed.

Lemma table_count_absent k t : ~ In k (keys t) -> table_count k t = 0.
Proof.
  induction t as [| [k' c] rest IH]; simpl; intros H.
  - reflexivity.
  - destruct (same_rgb k k') eqn:E.
    + apply same_rgb_true in E. subst. tauto.
    + apply IH. tauto.
Qed.

Lemma tally_count k k' t :
  sorted t ->
  table_count k (tally k' t)
  = table_count k t + (if same_rgb k k' then 1 else 0).
Proof.
  induction t as [| [k0 c] rest IH]; simpl; intros S.
  - destruct (same_rgb k k'); reflexivity.
  - pose proof (sorted_NoDup _ S) as ND. simpl in ND.
    inversion S as [| ? ? Srest Hall]; subst.
    inversion ND as [| ? ? Hnotin NDrest]; subst.
    destruct (compare_rgb k' k0) eqn:E; simpl.
    + apply compare_rgb_eq in E. subst k0.
      destruct (same_rgb k k'); lia.
    + destruct (same_rgb k k') eqn:Ek.
      * apply same_rgb_true in Ek. subst k'.
        assert (Hk0 : same_rgb k k0 = false).
        { apply same_rgb_false. intros ->. exact (lt_rgb_irrefl _ E). }
        rewrite Hk0. rewrite table_count_absent; [lia |].
        intros Hin. rewrite Forall_forall in Hall.
        exact (lt_rgb_irrefl k (lt_rgb_trans _ _ _ E (Hall k Hin))).
      * lia.
    + destruct (same_rgb k k0) eqn:Ek0.
      * apply same_rgb_true in Ek0. subst k0.
        assert (Hk : same_rgb k k' = false).
        { apply same_rgb_false. intros ->.
          assert (compare_rgb k' k' = Eq) by now apply compare_rgb_eq.
          congruence. }
        rewrite Hk. lia.
      * now apply IH.
Qed.

Lemma unique_table_count k rows :
  table_count k (unique_table rows) = occurrences k rows.
Proof.
  unfold occurrences.
  induction rows as [| r rows IH]; simpl.
  - reflexivity.
  - rewrite tally_count by apply unique_table_sorted.
    rewrite IH. destruct (same_rgb k r); simpl; lia.
Qed.

Lemma zip_np_unique rows :
  let '(unique_colors, counts) := np_unique rows in
  combine unique_colors counts = unique_table rows.
Proof.
  unfold np_unique.
  destruct (split (unique_table rows)) as [unique_colors counts] eqn:E.
  exact (split_combine (unique_table rows) E).
Qed.

End TableFacts.

(** ** Buckets and the selection loop *)

Module AnalyzerFacts.
Import ColorAnalyzer Facts TableFacts.

Lemma group_channel_steps v : uint8 v -> In (group_channel v) steps.
Proof.
  unfold uint8, group_channel, wrap8, steps. intros Hv.
  assert (Hq : 0 <= v / 32 < 8).
  { split; [apply Z.div_pos | apply Z.div_lt_upper_bound]; lia. }
  assert (Hc : v / 32 = 0 \/ v / 32 = 1 \/ v / 32 = 2 \/ v / 32 = 3 \/
               v / 32 = 4 \/ v / 32 = 5 \/ v / 32 = 6 \/ v / 32 = 7) by lia.
  destruct Hc as [E | [E | [E | [E | [E | [E | [E | E]]]]]]];
    rewrite E; simpl; tauto.
Qed.

Lemma in_all_buckets r g b :
  In r steps -> In g steps -> In b steps -> In (RGB r g b) all_buckets.
Proof.
  intros Hr Hg Hb. unfold all_buckets.
  apply in_flat_map. exists r. split; [assumption |].
  apply in_flat_map. exists g. split; [assumption |].
  apply in_map_iff. exists b. split; [reflexivity | assumption].
Qed.

Lemma group_in_buckets p : wf_pixel p -> In (group p) all_buckets.
Proof.
  intros (Hr & Hg & Hb). unfold group.
  apply in_all_buckets; now apply group_channel_steps.
Qed.

(** A decidable property checked on the 512 buckets holds of each. *)
Lemma check_buckets (f : rgb -> bool) :
  forallb f all_buckets = true -> forall b, In b all_buckets -> f b = true.
Proof. intros H b Hb. rewrite forallb_forall in H. now apply H. Qed.

(** Entries that fail the eligibility test leave the loop state alone. *)
Lemma consider_ineligible total st k c :
  eligible k = false -> consider total st (k, c) = st.
Proof. unfold consider. now intros ->. Qed.

Lemma skip_ineligible total entries st :
  (forall k, In k (keys entries) -> eligible k = false) ->
  fold_left (consider total) entries st = st.
Proof.
  revert st. induction entries as [| [k c] rest IH]; intros st H.
  - reflexivity.
  - cbn [fold_left].
    rewrite consider_ineligible by (apply H; now left).
    apply IH. intros k' Hk'. apply H. now right.
Qed.

Lemma select_none total entries :
  (forall k, In k (keys entries) -> eligible k = false) ->
  select total entries = initial_best.
Proof. apply skip_ineligible. Qed.

(** When one row only passes the test the loop ends on it. *)
Lemma select_only total entries k :
  NoDup (keys entries) ->
  In k (keys entries) ->
  eligible k = true ->
  (forall k', In k' (keys entries) -> k' <> k -> eligible k' = false) ->
  Py.lt 0 (vibrancy_score k (table_count k entries) total) = true ->
  fst (select total entries) = Some k.
Proof.
  intros ND Hin Hel Hothers Hscore.
  unfold keys in Hin. apply in_map_iff in Hin as ([k0 c] & Hk0 & Hin).
  simpl in Hk0. subst k0.
  apply in_split in Hin as (l1 & l2 & ->).
  unfold keys in ND, Hothers. rewrite map_app in ND, Hothers. simpl in ND, Hothers.
  pose proof (NoDup_remove_2 _ _ _ ND) as Hnot.
  assert (H1 : forall k', In k' (keys l1) -> eligible k' = false).
  { intros k' Hk'. apply Hothers.
    - apply in_or_app. now left.
    - intros ->. apply Hnot. apply in_or_app. now left. }
  assert (H2 : forall k', In k' (keys l2) -> eligible k' = false).
  { intros k' Hk'. apply Hothers.
    - apply in_or_app. right. now right.
    - intros ->. apply Hnot. apply in_or_app. now right. }
  assert (Hc : table_count k (l1 ++ (k, c) :: l2) = c).
  { clear - Hnot. induction l1 as [| [k1 c1] l1 IH]; simpl.
    - now rewrite same_rgb_refl.
    - simpl in Hnot.
      assert (E : same_rgb k k1 = false).
      { apply same_rgb_false. intros ->. apply Hnot. now left. }
      rewrite E. apply IH. intros H. apply Hnot. now right. }
  rewrite Hc in Hscore.
  unfold select. rewrite fold_left_app. cbn [fold_left].
  rewrite (skip_ineligible _ l1) by assumption.
  assert (Hstep : consider total initial_best (k, c)
                  = (Some k, vibrancy_score k c total)).
  { unfold consider, initial_best. cbn [snd]. now rewrite Hel, Hscore. }
  rewrite Hstep. now rewrite skip_ineligible.
Qed.

(** The [try] body once the table is zipped back together. *)
Lemma analyze_pixels_eq pixels :
  analyze_pixels pixels =
  if Z.of_nat (List.length (filtered pixels)) =? 0 then
    Py.Returned (Some default_color)
  else
    match fst (select (Z.of_nat (List.length (filtered pixels)))
                      (unique_table (map group (filtered pixels)))) with
    | Some c => c' <- post_process c ;; Py.Returned (Some (hex_color c'))
    | None => Py.Returned None
    end.
Proof.
  unfold analyze_pixels.
  destruct (Z.of_nat (List.length (filtered pixels)) =? 0); [reflexivity |].
  pose proof (zip_np_unique (map group (filtered pixels))) as Hzip.
  destruct (np_unique (map group (filtered pixels))) as [unique_colors counts].
  rewrite Hzip.
  destruct (select _ _) as [best_color best_score]. reflexivity.
Qed.

Lemma filtered_in pixels p :
  In p (filtered pixels) <-> In p pixels /\ very_light p = false.
Proof.
  unfold filtered. rewrite filter_In.
  destruct (very_light p); simpl; intuition congruence.
Qed.

(** No eligible bucket among the kept pixels: the default colour. *)
Lemma detect_no_eligible pixels :
  (forall p, In p (filtered pixels) -> eligible (group p) = false) ->
  detect_dominant_color (Py.Returned pixels) = Py.Returned default_color.
Proof.
  intros H. unfold detect_dominant_color, try_block. simpl.
  rewrite analyze_pixels_eq.
  destruct (Z.of_nat (List.length (filtered pixels)) =? 0); [reflexivity |].
  rewrite select_none; [reflexivity |].
  intros k Hk. apply (proj1 (keys_unique_table _ _)) in Hk.
  apply in_map_iff in Hk as (p & <- & Hp). now apply H.
Qed.

End AnalyzerFacts.

(** ** Checks over the finite bucket grid *)

Module BucketChecks.
Import ColorAnalyzer Facts TableFacts AnalyzerFacts.

(** Post-processing never raises on a bucket that can win. *)
Lemma post_process_returns b :
  In b all_buckets -> eligible b = true ->
  exists c, post_process b = Py.Returned c.
Proof.
  intros Hb He.
  assert (C : forallb (fun b => implb (eligible b) (returned (post_process b)))
                      all_buckets = true) by (vm_compute; reflexivity).
  pose proof (check_buckets _ C b Hb) as H. cbv beta in H.
  rewrite He in H. simpl in H.
  destruct (post_process b) as [c | e]; [eauto | discriminate].
Qed.

(** A bucket with saturation at most 0.2 is not eligible. *)
Lemma low_saturation_ineligible b :
  In b all_buckets -> Py.le (saturation b) 0.2 = true -> eligible b = false.
Proof.
  intros Hb Hs.
  assert (C : forallb (fun b => implb (Py.le (saturation b) 0.2)
                                      (negb (eligible b)))
                      all_buckets = true) by (vm_compute; reflexivity).
  pose proof (check_buckets _ C b Hb) as H. cbv beta in H.
  rewrite Hs in H. simpl in H. now destruct (eligible b).
Qed.

(** A bucket with three equal channels is not eligible. *)
Lemma gray_bucket_ineligible v : In v steps -> eligible (RGB v v v) = false.
Proof.
  unfold steps. simpl.
  intros [<- | [<- | [<- | [<- | [<- | [<- | [<- | [<- | []]]]]]]]];
    vm_compute; reflexivity.
Qed.

Lemma very_light_channel v : uint8 v -> 240 < v -> group_channel v = 224.
Proof.
  unfold uint8, group_channel, wrap8. intros Hv Hl.
  assert (E : v / 32 = 7).
  { assert (7 <= v / 32) by (apply Z.div_le_lower_bound; lia).
    assert (v / 32 < 8) by (apply Z.div_lt_upper_bound; lia).
    lia. }
  rewrite E. reflexivity.
Qed.

Lemma very_light_group p :
  wf_pixel p -> very_light p = true -> group p = RGB 224 224 224.
Proof.
  intros (Hr & Hg & Hb). unfold very_light, group.
  rewrite !andb_true_iff, !Z.ltb_lt. intros [[Lr Lg] Lb].
  now rewrite !very_light_channel.
Qed.

(** Pixels of an eligible bucket survive the near-white filter. *)
Lemma eligible_not_very_light p :
  wf_pixel p -> eligible (group p) = true -> very_light p = false.
Proof.
  intros Hwf He. destruct (very_light p) eqn:Hl; [| reflexivity].
  rewrite (very_light_group p Hwf Hl) in He.
  vm_compute in He. discriminate.
Qed.

Lemma in_totals t : 4000 <= t <= 10000 -> In t totals.
Proof.
  intros Ht. unfold totals. apply in_map_iff.
  exists (Z.to_nat (t - 4000)). split; [lia |].
  apply in_seq. lia.
Qed.

(** With 4000 pixels in an eligible bucket its score beats the initial
    [best_score = 0], whatever the number of kept pixels. *)
Lemma vibrancy_score_split b count total :
  vibrancy_score b count total
  = (score_base b + share_term count total)%float.
Proof. reflexivity. Qed.

Lemma patch_score_positive b t :
  In b all_buckets -> eligible b = true -> 4000 <= t <= 10000 ->
  Py.lt 0 (vibrancy_score b 4000 t) = true.
Proof.
  intros Hb He Ht.
  assert (C : forallb (scores_positive (map (share_term 4000) totals))
                      all_buckets = true) by (vm_compute; reflexivity).
  pose proof (check_buckets _ C b Hb) as H.
  unfold scores_positive in H. rewrite He in H. cbn [implb] in H.
  rewrite vibrancy_score_split.
  apply (proj1 (forallb_forall _ _) H).
  apply in_map. now apply in_totals.
Qed.

End BucketChecks.

(** ** ColorAnalyzer: the stated properties *)

Module ColorAnalyzerSpec.
Import ColorAnalyzer Facts TableFacts AnalyzerFacts BucketChecks.

(** Every bucket that can win is post-processed without error, and the
    luma of the emitted colour is at least 98.475. *)
Lemma emitted_luma_lower_bound b :
  In b all_buckets -> eligible b = true ->
  exists l, emitted_luma1000 b = Py.Returned l /\ 98475 <= l.
Proof.
  intros Hb He.
  assert (C : forallb
                (fun b => implb (eligible b)
                   match emitted_luma1000 b with
                   | Py.Returned l => 98475 <=? l
                   | Py.Raised _ => false
                   end) all_buckets = true) by (vm_compute; reflexivity).
  pose proof (check_buckets _ C b Hb) as H. cbv beta in H.
  rewrite He in H. cbn [implb] in H.
  destruct (emitted_luma1000 b) as [l | e]; [| discriminate].
  exists l. split; [reflexivity | now apply Z.leb_le].
Qed.

(** Of the 332 eligible buckets, 70 are emitted with a luma below 120:
    the boosted channels are truncated by [int] and clamped to 255. *)
Lemma emitted_luma_census :
  List.length (filter eligible all_buckets) = 332%nat /\
  List.length
    (filter (fun b => match emitted_luma1000 b with
                      | Py.Returned l => l <? 120000
                      | Py.Raised _ => false
                      end)
            (filter eligible all_buckets)) = 70%nat.
Proof. split; vm_compute; reflexivity. Qed.

(** C1 (fails on the code).  The claim: the colour emitted for a winning
    bucket has luma at least 120.  The code: an image whose sampled pixels
    are all (230, 10, 130) has the single bucket (224, 0, 128), which is
    eligible; its enhanced colour (255, 0, 153) has luma 93.687, the boost
    120 / 93.687 is applied, the red channel is clamped at 255 and the blue
    one truncated to 195, and the emitted colour "#FF00C3" has luma 98.475,
    below 120. *)
Theorem emitted_luma_below_120 :
  eligible (RGB 224 0 128) = true /\
  post_process (RGB 224 0 128) = Py.Returned (RGB 255 0 195) /\
  detect_dominant_color
    (Py.Returned (repeat (RGB 230 10 130) (Z.to_nat 10000)))
  = Py.Returned "#FF00C3"%string /\
  luma1000 255 0 195 = 98475 /\
  Py.lt (brightness 255 0 195) 120 = true.
Proof. repeat split; vm_compute; reflexivity. Qed.

(** C6.  When every sampled pixel has R = G = B, the analyzer returns
    exactly the default colour "#FF9800". *)
Theorem gray_image_default_color (pixels : list rgb) :
  Forall wf_pixel pixels ->
  Forall (fun p => red p = green p /\ green p = blue p) pixels ->
  detect_dominant_color (Py.Returned pixels) = Py.Returned "#FF9800"%string.
Proof.
  intros Hwf Hgray. apply detect_no_eligible.
  intros p Hp. apply filtered_in in Hp as [Hp _].
  rewrite Forall_forall in Hwf, Hgray.
  destruct (Hgray p Hp) as [Erg Egb]. destruct (Hwf p Hp) as (Hr & _ & _).
  unfold group. rewrite <- Egb, <- Erg.
  apply gray_bucket_ineligible. now apply group_channel_steps.
Qed.

Lemma gray_image_default_color_witness :
  detect_dominant_color
    (Py.Returned [RGB 128 128 128; RGB 250 250 250; RGB 17 17 17])
  = Py.Returned "#FF9800"%string.
Proof.
  apply gray_image_default_color.
  - repeat constructor; unfold uint8; simpl; lia.
  - repeat constructor.
Defined.

(** C9.  The analyzer always returns a colour and never raises: when the
    body of its [try] block raises (an unreadable image, an array of the
    wrong shape) and when no bucket of the kept pixels passes the
    eligibility filter (an all-white image keeps no pixel at all), the
    colour returned is the default "#FF9800". *)
Theorem analyze_never_raises (sampled : Py.outcome (list rgb)) :
  (exists hex, detect_dominant_color sampled = Py.Returned hex) /\
  (forall e, try_block sampled = Py.Raised e ->
     detect_dominant_color sampled = Py.Returned "#FF9800"%string) /\
  (forall pixels, sampled = Py.Returned pixels ->
     (forall p, In p (filtered pixels) -> eligible (group p) = false) ->
     detect_dominant_color sampled = Py.Returned "#FF9800"%string).
Proof.
  split; [| split].
  - unfold detect_dominant_color.
    destruct (try_block sampled) as [[hex |] | e]; eauto.
  - intros e He. unfold detect_dominant_color. now rewrite He.
  - intros pixels -> H. now apply detect_no_eligible.
Qed.

Lemma analyze_never_raises_witness :
  detect_dominant_color (Py.Raised (Py.OSError "cannot identify image file"))
  = Py.Returned "#FF9800"%string /\
  detect_dominant_color
    (Py.Returned [RGB 255 255 255; RGB 250 251 252; RGB 0 0 0])
  = Py.Returned "#FF9800"%string.
Proof.
  split.
  - apply (proj1 (proj2 (analyze_never_raises
              (Py.Raised (Py.OSError "cannot identify image file"))))
            (Py.OSError "cannot identify image file")).
    reflexivity.
  - apply (proj2 (proj2 (analyze_never_raises
              (Py.Returned [RGB 255 255 255; RGB 250 251 252; RGB 0 0 0])))
            [RGB 255 255 255; RGB 250 251 252; RGB 0 0 0] eq_refl).
    simpl. intros p [<- | []]. vm_compute. reflexivity.
Defined.

End ColorAnalyzerSpec.

(** ** A saturated patch against a desaturated majority *)

Module PatchSpec.
Import ColorAnalyzer Facts TableFacts AnalyzerFacts BucketChecks.

Lemma occurrences_in k rows : 0 < occurrences k rows -> In k rows.
Proof.
  unfold occurrences. induction rows as [| r rows IH]; simpl; [lia |].
  destruct (same_rgb k r) eqn:E.
  - apply same_rgb_true in E. intros _. now left.
  - intros H. right. now apply IH.
Qed.

Lemma occurrences_le_length k rows :
  occurrences k rows <= Z.of_nat (List.length rows).
Proof.
  unfold occurrences. pose proof (filter_length_le (same_rgb k) rows). lia.
Qed.

Lemma occurrences_filtered patch pixels :
  (forall p, In p pixels -> group p = patch -> very_light p = false) ->
  occurrences patch (map group (filtered pixels))
  = occurrences patch (map group pixels).
Proof.
  unfold occurrences, filtered.
  induction pixels as [| p pixels IH]; simpl; intros H; [reflexivity |].
  assert (IH' : Z.of_nat (List.length (filter (same_rgb patch)
                  (map group (filter (fun p => negb (very_light p)) pixels))))
                = Z.of_nat (List.length (filter (same_rgb patch)
                                               (map group pixels)))).
  { apply IH. intros q Hq. apply H. now right. }
  destruct (very_light p) eqn:Hl; simpl.
  - destruct (same_rgb patch (group p)) eqn:E; [| exact IH'].
    apply same_rgb_true in E.
    rewrite (H p (or_introl eq_refl) (eq_sym E)) in Hl. discriminate.
  - destruct (same_rgb patch (group p)); simpl; lia.
Qed.

(** C3 as the code has it.  Take a sample of 100x100 pixels of which 4000
    (40%) fall into one bucket [patch] that passes the eligibility test
    (80 < brightness < 200, saturation > 0.2), every other pixel lying in a
    bucket of saturation at most 0.2 (the saturation is that of the bucket,
    each channel floored to a multiple of 32, not that of the pixel;
    whatever the pixels are and however many share a bucket).  The analyzer
    returns the post-processed colour of [patch]: the majority does not
    win. *)
Theorem saturated_patch_outranks_gray (pixels : list rgb) (patch : rgb) :
  Forall wf_pixel pixels ->
  Z.of_nat (List.length pixels) = 10000 ->
  eligible patch = true ->
  count_in_bucket patch pixels = 4000 ->
  Forall (fun p => group p = patch \/ bucket_desaturated p = true) pixels ->
  exists c,
    post_process patch = Py.Returned c /\
    detect_dominant_color (Py.Returned pixels) = Py.Returned (hex_color c).
Proof.
  intros Hwf Hlen Hel Hcount Hrest.
  rewrite Forall_forall in Hwf, Hrest.
  unfold count_in_bucket in Hcount.
  assert (Hbucket : In patch all_buckets).
  { assert (Hin : In patch (map group pixels))
      by (apply occurrences_in; lia).
    apply in_map_iff in Hin as (p & <- & Hp).
    apply group_in_buckets. now apply Hwf. }
  assert (Hkept : occurrences patch (map group (filtered pixels)) = 4000).
  { rewrite occurrences_filtered; [exact Hcount |].
    intros p Hp E. apply eligible_not_very_light; [now apply Hwf |].
    now rewrite E. }
  assert (Htotal : 4000 <= Z.of_nat (List.length (filtered pixels)) <= 10000).
  { split.
    - pose proof (occurrences_le_length patch (map group (filtered pixels))) as H.
      rewrite length_map in H. lia.
    - pose proof (filter_length_le (fun p => negb (very_light p)) pixels) as H.
      unfold filtered. lia. }
  destruct (post_process_returns patch Hbucket Hel) as [c Hc].
  exists c. split; [exact Hc |].
  unfold detect_dominant_color, try_block. simpl.
  rewrite analyze_pixels_eq.
  destruct (Z.eqb_spec (Z.of_nat (List.length (filtered pixels))) 0) as [E | _];
    [lia |].
  rewrite (select_only _ _ patch).
  - now rewrite Hc.
  - apply sorted_NoDup, unique_table_sorted.
  - apply keys_unique_table. apply occurrences_in. lia.
  - exact Hel.
  - intros k Hk Hne. apply (proj1 (keys_unique_table _ _)) in Hk.
    apply in_map_iff in Hk as (p & <- & Hp).
    apply filtered_in in Hp as [Hp _].
    destruct (Hrest p Hp) as [E | Hd]; [contradiction |].
    apply low_saturation_ineligible; [| exact Hd].
    apply group_in_buckets. now apply Hwf.
  - rewrite unique_table_count, Hkept.
    now apply patch_score_positive.
Qed.

(** C3 as stated fails: the gray (128, 127, 127) has saturation 1/128, at
    most 0.2, yet flooring its channels to multiples of 32 gives the bucket
    (128, 96, 96), of saturation 0.25, which is eligible.  On 6000 such
    pixels and 4000 pixels (130, 100, 130) of the eligible bucket
    (128, 96, 128) the analyzer returns "#997373", the colour derived from
    the bucket of the gray, and not "#997399", the one derived from the
    patch. *)
Lemma nearly_gray_majority_wins :
  let gray := RGB 128 127 127 in
  let vivid := RGB 130 100 130 in
  let pixels := repeat gray (Z.to_nat 6000) ++ repeat vivid (Z.to_nat 4000) in
  Forall wf_pixel pixels /\
  Z.of_nat (List.length pixels) = 10000 /\
  desaturated gray = true /\
  eligible (group vivid) = true /\
  count_in_bucket (group vivid) pixels = 4000 /\
  Forall (fun p => group p = group vivid \/ desaturated p = true) pixels /\
  group gray = RGB 128 96 96 /\
  eligible (group gray) = true /\
  post_process (group gray) = Py.Returned (RGB 153 115 115) /\
  post_process (group vivid) = Py.Returned (RGB 153 115 153) /\
  detect_dominant_color (Py.Returned pixels)
  = Py.Returned (hex_color (RGB 153 115 115)) /\
  hex_color (RGB 153 115 115) = "#997373"%string /\
  hex_color (RGB 153 115 153) = "#997399"%string.
Proof.
  cbv zeta.
  assert (Hall : forall (P : rgb -> Prop),
            P (RGB 128 127 127) -> P (RGB 130 100 130) ->
            Forall P (repeat (RGB 128 127 127) (Z.to_nat 6000)
                      ++ repeat (RGB 130 100 130) (Z.to_nat 4000))).
  { intros P Hg Hv. apply Forall_app. split; apply Forall_forall;
      intros p Hp; apply repeat_spec in Hp; now subst p. }
  split; [apply Hall; unfold wf_pixel, uint8; simpl; lia |].
  split; [vm_compute; reflexivity |].
  split; [vm_compute; reflexivity |].
  split; [vm_compute; reflexivity |].
  split; [vm_compute; reflexivity |].
  split; [apply Hall; [right | left]; vm_compute; reflexivity |].
  repeat split; vm_compute; reflexivity.
Qed.

(** 6000 pixels of the gray (128, 128, 128) before 4000 of the orange
    (200, 80, 40). *)
Lemma saturated_patch_outranks_gray_witness :
  detect_dominant_color
    (Py.Returned (repeat (RGB 128 128 128) (Z.to_nat 6000)
                  ++ repeat (RGB 200 80 40) (Z.to_nat 4000)))
  = Py.Returned "#EA4D26"%string.
Proof.
  destruct (saturated_patch_outranks_gray
              (repeat (RGB 128 128 128) (Z.to_nat 6000)
               ++ repeat (RGB 200 80 40) (Z.to_nat 4000))
              (RGB 192 64 32)) as (c & Hc & Hd).
  - apply Forall_app. split; apply Forall_forall; intros p Hp;
      apply repeat_spec in Hp; subst p; unfold wf_pixel, uint8; simpl; lia.
  - vm_compute. reflexivity.
  - vm_compute. reflexivity.
  - vm_compute. reflexivity.
  - apply Forall_app. split; apply Forall_forall; intros p Hp;
      apply repeat_spec in Hp; subst p.
    + right. vm_compute. reflexivity.
    + left. vm_compute. reflexivity.
  - rewrite Hd. vm_compute in Hc. injection Hc as <-.
    vm_compute. reflexivity.
Defined.

End PatchSpec.

(** ** The composed canvas *)

Module ComposerFacts.
Import LayoutPlanner TemplateComposer Facts.

Definition overlay (op : draw_op) : Prop := full_width op = false.

Section WithDrawing.
Variable getrgb : string -> Py.outcome rgb.
Variable text_width : string -> Z.

(** Whichever way a band is fitted, the image pasted has the band's
    height and the canvas width. *)
Lemma fit_band_size target p b :
  fit_band getrgb target p = Py.Returned b ->
  band_height b = target /\ band_width b = canvas_width /\
  band_source b = pic_source p.
Proof.
  unfold fit_band. intros H.
  apply bind_returned in H as (scaled & _ & H).
  apply bind_returned in H as ([] & _ & H).
  destruct (scaled >=? target).
  - injection H as <-. simpl. repeat split; lia.
  - apply bind_returned in H as ([] & _ & H).
    injection H as <-. simpl. repeat split.
Qed.

Lemma draw_rectangle_returned cv x0 y0 x1 y1 fill cv' :
  draw_rectangle getrgb cv x0 y0 x1 y1 fill = Py.Returned cv' ->
  cv' = cv ++ [Rectangle x0 y0 x1 y1 fill] /\
  returned (getrgb fill) = true.
Proof.
  unfold draw_rectangle. intros H.
  apply bind_returned in H as (c & Hc & H).
  injection H as <-. rewrite Hc. now split.
Qed.

Lemma draw_text_returned cv x y line fill cv' :
  draw_text getrgb cv x y line fill = Py.Returned cv' ->
  cv' = cv ++ [Text x y line fill].
Proof.
  unfold draw_text. intros H.
  apply bind_returned in H as (c & _ & H). now injection H as <-.
Qed.

(** A loop whose body only adds overlays only adds overlays. *)
Lemma for_each_overlays {A : Type} (body : canvas -> A -> Py.outcome canvas)
    (xs : list A) :
  (forall cv x cv', body cv x = Py.Returned cv' ->
     exists ext, cv' = cv ++ ext /\ Forall overlay ext) ->
  forall cv cv', for_each body xs cv = Py.Returned cv' ->
     exists ext, cv' = cv ++ ext /\ Forall overlay ext.
Proof.
  intros Hbody. induction xs as [| x xs IH]; simpl; intros cv cv' H.
  - injection H as <-. exists []. now rewrite app_nil_r.
  - apply bind_returned in H as (cv1 & H1 & H).
    apply Hbody in H1 as (ext1 & -> & F1).
    apply IH in H as (ext2 & -> & F2).
    exists (ext1 ++ ext2). rewrite app_assoc. split; [reflexivity |].
    apply Forall_app. now split.
Qed.

Lemma dot_overlay x y0 y1 fill : overlay (Rectangle x y0 (x + 4) y1 fill).
Proof.
  unfold overlay, full_width, canvas_width.
  destruct (Z.leb_spec x 0); [| reflexivity].
  destruct (Z.leb_spec (735 - 1) (x + 4)); [lia | reflexivity].
Qed.

Lemma dotted_line_overlays y0 y1 cv cv' :
  dotted_line getrgb y0 y1 cv = Py.Returned cv' ->
  exists ext, cv' = cv ++ ext /\ Forall overlay ext.
Proof.
  unfold dotted_line. apply for_each_overlays.
  intros cv0 x cv1 H. apply draw_rectangle_returned in H as [-> _].
  exists [Rectangle x y0 (x + 4) y1 "white"]. split; [reflexivity |].
  constructor; [apply dot_overlay | constructor].
Qed.

Lemma draw_line_overlays start_y cv entry cv' :
  draw_line getrgb text_width start_y cv entry = Py.Returned cv' ->
  exists ext, cv' = cv ++ ext /\ Forall overlay ext.
Proof.
  destruct entry as [i line]. unfold draw_line. intros H.
  apply bind_returned in H as (cv1 & H1 & H).
  apply bind_returned in H as (cv2 & H2 & H).
  apply draw_text_returned in H1, H2, H. subst.
  eexists. rewrite <- !app_assoc. split; [reflexivity |].
  repeat constructor.
Qed.

(** What a returned render consists of. *)
Lemma render_returned opened title use_auto_color manual_color cv color :
  create_color_matched_template getrgb text_width opened title
    use_auto_color manual_color = Py.Returned (cv, color) ->
  exists img top_image bottom_image top_final bottom_final ext,
    opened = Py.Returned img /\
    resolve_color img use_auto_color manual_color = Py.Returned color /\
    band_sources img = Py.Returned (top_image, bottom_image) /\
    fit_band getrgb top_image_height top_image = Py.Returned top_final /\
    fit_band getrgb bottom_image_height bottom_image
      = Py.Returned bottom_final /\
    returned (getrgb color) = true /\
    cv = [Paste TopSlot top_final 0 0;
          Paste BottomSlot bottom_final 0 (top_image_height + banner_height);
          Rectangle 0 top_image_height canvas_width
                    (top_image_height + banner_height) color] ++ ext /\
    Forall overlay ext.
Proof.
  unfold create_color_matched_template. intros H.
  apply bind_returned in H as (img & Himg & H).
  apply bind_returned in H as (detected & Hcolor & H).
  apply bind_returned in H as ([] & _ & H).
  apply bind_returned in H as ([top_image bottom_image] & Hsrc & H).
  apply bind_returned in H as (top_final & Htop & H).
  apply bind_returned in H as (bottom_final & Hbottom & H).
  apply bind_returned in H as (cv3 & H3 & H).
  apply bind_returned in H as (cv4 & H4 & H).
  apply bind_returned in H as (cv5 & H5 & H).
  apply bind_returned in H as (cv6 & H6 & H).
  injection H as <- <-.
  apply draw_rectangle_returned in H3 as [-> Hparse].
  apply dotted_line_overlays in H4 as (e4 & -> & F4).
  apply dotted_line_overlays in H5 as (e5 & -> & F5).
  apply (for_each_overlays _ _ (draw_line_overlays _)) in H6
    as (e6 & -> & F6).
  exists img, top_image, bottom_image, top_final, bottom_final,
    (e4 ++ e5 ++ e6).
  repeat split; try assumption.
  - simpl. now rewrite <- !app_assoc.
  - repeat (apply Forall_app; split); assumption.
Qed.

End WithDrawing.

(** Overlays do not change what a row shows. *)
Lemma row_paint_overlays cv ext y :
  Forall overlay ext -> row_paint (cv ++ ext) y = row_paint cv y.
Proof.
  unfold row_paint. rewrite fold_left_app.
  generalize (fold_left
    (fun shown op => if full_width op && covers op y then paint_of op else shown)
    cv White).
  induction ext as [| op ext IH]; simpl; intros shown F.
  - reflexivity.
  - inversion F as [| ? ? Hop Hext]; subst.
    unfold overlay in Hop. rewrite Hop. simpl. now apply IH.
Qed.

End ComposerFacts.

(** ** LayoutPlanner: the stated properties *)

Module LayoutSpec.
Import LayoutPlanner TemplateComposer Facts ComposerFacts.

(** On every size up to 128x128 the binary64 test of design.py agrees with
    the closed interval [4/5 <= w/h <= 5/4] in exact arithmetic, and the
    test of template.py with the open one. *)
Lemma grid_tests_small_sizes :
  forallb
    (fun w =>
       forallb
         (fun h =>
            match is_grid w h with
            | Py.Returned g =>
                Bool.eqb g ((4 * h <=? 5 * w) && (4 * w <=? 5 * h))
            | Py.Raised _ => false
            end
            && Bool.eqb (isGrid w h) ((4 * h <? 5 * w) && (4 * w <? 5 * h)))
         (range 1 129 1))
    (range 1 129 1) = true.
Proof. vm_compute. reflexivity. Qed.

(** C2 (fails on the code of template.py).  The claim: a width/height
    ratio of exactly 0.8 or exactly 1.25 is a grid, 0.79 and 1.26 are not.
    design.py does so; the browser variant in template.py compares
    strictly and classifies 800x1000 (ratio 0.8) and 1000x800 (ratio 1.25)
    as single images. *)
Theorem grid_boundary_variants_disagree :
  is_grid 800 1000 = Py.Returned true /\
  is_grid 1000 800 = Py.Returned true /\
  is_grid 790 1000 = Py.Returned false /\
  is_grid 1260 1000 = Py.Returned false /\
  isGrid 800 1000 = false /\
  isGrid 1000 800 = false /\
  isGrid 790 1000 = false /\
  isGrid 1260 1000 = false.
Proof. repeat split; vm_compute; reflexivity. Qed.

(** C5.  For an image classified as a grid, the top band is cut from the
    box (0, 0)-(w // 2, h // 2) and the bottom band from
    (w // 2, h // 2)-(w, h), odd sizes included (the bottom-right quadrant
    then takes the extra row or column); a returned canvas carries exactly
    these sources in its two pasted bands. *)
Theorem grid_band_sources (img : image) :
  is_grid (width img) (height img) = Py.Returned true ->
  band_sources img
  = Py.Returned
      (Picture (width img / 2) (height img / 2)
               (Box 0 0 (width img / 2) (height img / 2)),
       Picture (width img - width img / 2) (height img - height img / 2)
               (Box (width img / 2) (height img / 2) (width img) (height img)))
  /\
  forall getrgb text_width title use_auto_color manual_color cv color,
    create_color_matched_template getrgb text_width (Py.Returned img) title
      use_auto_color manual_color = Py.Returned (cv, color) ->
    exists top_final bottom_final rest,
      cv = Paste TopSlot top_final 0 0
           :: Paste BottomSlot bottom_final 0 520 :: rest /\
      band_source top_final
      = Box 0 0 (width img / 2) (height img / 2) /\
      band_source bottom_final
      = Box (width img / 2) (height img / 2) (width img) (height img).
Proof.
  intros Hgrid.
  assert (Hsrc : band_sources img
    = Py.Returned
        (Picture (width img / 2) (height img / 2)
                 (Box 0 0 (width img / 2) (height img / 2)),
         Picture (width img - width img / 2) (height img - height img / 2)
                 (Box (width img / 2) (height img / 2)
                      (width img) (height img)))).
  { unfold band_sources. rewrite Hgrid. simpl. unfold crop. simpl.
    now rewrite !Z.sub_0_r. }
  split; [exact Hsrc |].
  intros getrgb text_width title use_auto_color manual_color cv color H.
  apply render_returned in H
    as (img' & t & b & tf & bf & ext & Himg & _ & Hs & Ht & Hb & _ & -> & _).
  injection Himg as <-. rewrite Hsrc in Hs. injection Hs as <- <-.
  apply fit_band_size in Ht as (_ & _ & Ht).
  apply fit_band_size in Hb as (_ & _ & Hb).
  exists tf, bf. eexists. split; [reflexivity |]. now split.
Qed.

(** An 801x801 source: the quadrants are (0,0)-(400,400) and
    (400,400)-(801,801). *)
Lemma grid_band_sources_witness :
  band_sources Examples.square
  = Py.Returned (Picture 400 400 (Box 0 0 400 400),
                 Picture 401 401 (Box 400 400 801 801)).
Proof.
  apply (proj1 (grid_band_sources Examples.square
                  ltac:(vm_compute; reflexivity))).
Defined.

End LayoutSpec.

(** ** TemplateComposer: bands and banner colour *)

Module ComposerSpec.
Import LayoutPlanner TemplateComposer Facts ComposerFacts.

(** The configured heights tile the canvas. *)
Lemma band_heights_tile :
  top_image_height + banner_height + bottom_image_height = canvas_height /\
  top_image_height = 400 /\ banner_height = 120 /\
  bottom_image_height = 582 /\ canvas_height = 1102.
Proof. repeat split. Qed.

Section WithDrawing.
Variable getrgb : string -> Py.outcome rgb.
Variable text_width : string -> Z.

#[local] Abbreviation render :=
  (create_color_matched_template getrgb text_width).

(** On every returned canvas: the rows above 400 show the top image,
    the rows 400 to 520, both included, the banner colour, and the rows
    from 521 on the bottom image; the bottom image was pasted from row
    520 on, so the banner rectangle paints over its first row. *)
Lemma returned_canvas_rows opened title use_auto_color manual_color cv color :
  render opened title use_auto_color manual_color = Py.Returned (cv, color) ->
  (forall y, 0 <= y < 400 -> row_paint cv y = BandImage TopSlot) /\
  (forall y, 400 <= y <= 520 -> row_paint cv y = Fill color) /\
  (forall y, 520 < y < 1102 -> row_paint cv y = BandImage BottomSlot) /\
  exists top_final bottom_final rest,
    cv = Paste TopSlot top_final 0 0
         :: Paste BottomSlot bottom_final 0 520
         :: Rectangle 0 400 735 520 color :: rest /\
    band_height top_final = 400 /\ band_height bottom_final = 582 /\
    covers (Paste BottomSlot bottom_final 0 520) 520 = true /\
    covers (Rectangle 0 400 735 520 color) 520 = true.
Proof.
  intros H.
  apply render_returned in H
    as (img & t & b & tf & bf & ext & _ & _ & _ & Ht & Hb & _ & -> & Fext).
  apply fit_band_size in Ht as (Hth & Htw & _).
  apply fit_band_size in Hb as (Hbh & Hbw & _).
  change top_image_height with 400 in *.
  change bottom_image_height with 582 in *.
  change banner_height with 120 in *. change canvas_width with 735 in *.
  assert (Hrow : forall y,
    row_paint ([Paste TopSlot tf 0 0; Paste BottomSlot bf 0 (400 + 120);
                Rectangle 0 400 735 (400 + 120) color] ++ ext) y
    = if (400 <=? y) && (y <=? 520) then Fill color
      else if (520 <=? y) && (y <? 1102) then BandImage BottomSlot
      else if (0 <=? y) && (y <? 400) then BandImage TopSlot
      else White).
  { intros y. rewrite row_paint_overlays by assumption.
    unfold row_paint. simpl. rewrite Hth, Htw, Hbh, Hbw.
    change canvas_width with 735. simpl.
    destruct (Z.leb_spec 400 y), (Z.leb_spec y 520), (Z.leb_spec 520 y),
      (Z.ltb_spec y 1102), (Z.leb_spec 0 y), (Z.ltb_spec y 400);
      simpl; try reflexivity; lia. }
  repeat split.
  - intros y Hy. rewrite Hrow.
    destruct (Z.leb_spec 400 y), (Z.leb_spec y 520), (Z.leb_spec 520 y),
      (Z.ltb_spec y 1102), (Z.leb_spec 0 y), (Z.ltb_spec y 400);
      simpl; try reflexivity; lia.
  - intros y Hy. rewrite Hrow.
    destruct (Z.leb_spec 400 y), (Z.leb_spec y 520);
      simpl; try reflexivity; lia.
  - intros y Hy. rewrite Hrow.
    destruct (Z.leb_spec 400 y), (Z.leb_spec y 520), (Z.leb_spec 520 y),
      (Z.ltb_spec y 1102); simpl; try reflexivity; lia.
  - exists tf, bf, ext. repeat split; try assumption.
    simpl. rewrite Hbh. reflexivity.
Qed.

Lemma for_each_returns {A S : Type} (body : S -> A -> Py.outcome S)
    (xs : list A) :
  (forall st x, exists st', body st x = Py.Returned st') ->
  forall st, exists st', for_each body xs st = Py.Returned st'.
Proof.
  intros Hbody. induction xs as [| x xs IH]; simpl; intros st.
  - eauto.
  - destruct (Hbody st x) as [st1 ->]. simpl. apply IH.
Qed.

Lemma accepted_returns fill :
  returned (getrgb fill) = true -> exists c, getrgb fill = Py.Returned c.
Proof. destruct (getrgb fill); [eauto | discriminate]. Qed.

(** The render returns once the image opens, the bands can be fitted
    and the parser takes the constant specifiers and the banner
    colour. *)
Lemma render_returns img title use_auto_color manual_color color t b tf bf :
  resolve_color img use_auto_color manual_color = Py.Returned color ->
  accepts getrgb (color :: constant_fills text_width title) ->
  band_sources img = Py.Returned (t, b) ->
  fit_band getrgb top_image_height t = Py.Returned tf ->
  fit_band getrgb bottom_image_height b = Py.Returned bf ->
  exists rest,
    render (Py.Returned img) title use_auto_color manual_color
    = Py.Returned
        (Paste TopSlot tf 0 0 :: Paste BottomSlot bf 0 520
         :: Rectangle 0 400 735 520 color :: rest, color).
Proof.
  intros Hcolor Hacc Hsrc Ht Hb.
  assert (Hwhite : exists c, getrgb "white" = Py.Returned c).
  { apply accepted_returns, Hacc. unfold constant_fills. simpl. tauto. }
  assert (Hbanner : exists c, getrgb color = Py.Returned c).
  { apply accepted_returns, Hacc. simpl. auto. }
  assert (Hdots : forall y0 y1 cv,
            exists cv', dotted_line getrgb y0 y1 cv = Py.Returned cv').
  { intros y0 y1 cv. unfold dotted_line. apply for_each_returns.
    intros st x. unfold draw_rectangle.
    destruct Hwhite as [c ->]. simpl. eauto. }
  assert (Htext : forall start_y cv,
            exists cv',
              for_each (draw_line getrgb text_width start_y)
                       (enumerate_from 0 (text_layout text_width title)) cv
              = Py.Returned cv').
  { intros start_y cv. unfold accepts, constant_fills in Hacc.
    destruct (text_layout text_width title) as [| line lines];
      [simpl; eauto |].
    apply for_each_returns. intros st [i l]. unfold draw_line, draw_text.
    destruct (accepted_returns "rgba(0,0,0,0.5)") as [c1 ->];
      [apply Hacc; simpl; tauto |].
    destruct (accepted_returns "rgba(0,0,0,0.3)") as [c2 ->];
      [apply Hacc; simpl; tauto |].
    destruct (accepted_returns text_color) as [c3 ->];
      [apply Hacc; simpl; tauto |].
    simpl. eauto. }
  assert (Hret : exists cv,
            render (Py.Returned img) title use_auto_color manual_color
            = Py.Returned (cv, color)).
  { unfold create_color_matched_template. simpl.
    rewrite Hcolor. simpl. unfold new_image.
    destruct Hwhite as [cw ->]. simpl.
    rewrite Hsrc. simpl. rewrite Ht. simpl. rewrite Hb. simpl.
    unfold draw_rectangle at 1. destruct Hbanner as [cb ->]. simpl.
    match goal with
    | |- context [dotted_line getrgb ?y0 ?y1 ?cv] =>
        destruct (Hdots y0 y1 cv) as [cv4 ->]
    end. simpl.
    match goal with
    | |- context [dotted_line getrgb ?y0 ?y1 ?cv] =>
        destruct (Hdots y0 y1 cv) as [cv5 ->]
    end. simpl.
    match goal with
    | |- context [for_each (draw_line getrgb text_width ?sy) _ ?cv] =>
        destruct (Htext sy cv) as [cv6 ->]
    end. simpl. eauto. }
  destruct Hret as [cv Hret]. rewrite Hret.
  apply render_returned in Hret
    as (img' & t' & b' & tf' & bf' & ext & Himg & _ & Hs & Ht' & Hb'
        & _ & -> & _).
  injection Himg as <-.
  rewrite Hsrc in Hs. injection Hs as <- <-.
  rewrite Ht in Ht'. injection Ht' as <-.
  rewrite Hb in Hb'. injection Hb' as <-.
  exists ext. reflexivity.
Qed.

End WithDrawing.

End ComposerSpec.

(** ** TemplateComposer: the stated properties *)

Module BannerSpec.
Import LayoutPlanner TemplateComposer Facts ComposerFacts ComposerSpec.

(** C7 (fails on the code).  The claim: the banner occupies the rows
    [400, 520) and no row belongs to two bands.  The code: the heights tile
    the canvas (400 + 120 + 582 = 1102), the top band is pasted at row 0 with
    height 400 and the bottom band at row 520 with height 582, but the banner
    is drawn with [draw.rectangle([0, 400, 735, 520])], whose corner rows are
    both filled: 121 rows, the last of which, row 520, is the first row of
    the bottom band and ends up in the banner colour.  The browser variant
    fills [fillRect(0, 400, width, 120)], which leaves row 520 alone.  The
    render evaluated is that of a 1600x900 image with the manual colour
    "#112233"; the title is left empty, the rows do not depend on it. *)
Theorem banner_overpaints_row_520 :
  exists top_final bottom_final rest,
    create_color_matched_template Examples.strict_getrgb Examples.mono_width
      (Py.Returned Examples.landscape) "" false (Some "#112233"%string)
    = Py.Returned
        (Paste TopSlot top_final 0 0
         :: Paste BottomSlot bottom_final 0 520
         :: Rectangle 0 400 735 520 "#112233" :: rest, "#112233"%string) /\
    top_image_height + banner_height + bottom_image_height = canvas_height /\
    band_height top_final = 400 /\
    band_height bottom_final = 582 /\
    covers (Paste BottomSlot bottom_final 0 520) 520 = true /\
    covers (Rectangle 0 400 735 520 "#112233") 520 = true /\
    List.length (rows_of (Rectangle 0 400 735 520 "#112233")) = 121%nat /\
    row_paint
      (Paste TopSlot top_final 0 0
       :: Paste BottomSlot bottom_final 0 520
       :: Rectangle 0 400 735 520 "#112233" :: rest) 520
    = Fill "#112233" /\
    fillRect_covers 400 120 520 = false.
Proof.
  destruct (create_color_matched_template Examples.strict_getrgb
              Examples.mono_width (Py.Returned Examples.landscape)
              "" false (Some "#112233"%string)) as [[cv color] | e] eqn:E;
    [| vm_compute in E; discriminate].
  pose proof (returned_canvas_rows _ _ _ _ _ _ _ _ E)
    as (_ & Hbanner & _ & tf & bf & rest & -> & Hth & Hbh & Hc1 & Hc2).
  assert (Hcolor : color = "#112233"%string).
  { vm_compute in E. now injection E. }
  subst color.
  exists tf, bf, rest.
  split; [reflexivity |]. split; [reflexivity |].
  split; [exact Hth |]. split; [exact Hbh |].
  split; [exact Hc1 |]. split; [exact Hc2 |].
  split; [vm_compute; reflexivity |].
  split; [apply Hbanner; lia | reflexivity].
Qed.

(** A non-empty manual colour reaches the banner as it is. *)
Lemma resolve_manual_nonempty img s :
  s <> EmptyString -> resolve_color img false (Some s) = Py.Returned s.
Proof. destruct s; [congruence | reflexivity]. Qed.

(** C4 as the code has it.  With [use_auto_color] false and a non-empty
    manual colour [s], the string is used as given, without any check of the
    form #RRGGBB, and is never replaced by the default.  When the colour
    parser of the drawing library rejects [s] the render raises and returns
    no canvas; the error is the parser's own once the image has opened and
    the bands are fitted.  A render that returns has painted the banner with
    [s] and returns [s]. *)
Theorem manual_color_passed_to_parser
    (getrgb : string -> Py.outcome rgb) (text_width : string -> Z)
    (opened : Py.outcome image) (title s : string) :
  s <> EmptyString ->
  (forall img, resolve_color img false (Some s) = Py.Returned s) /\
  (forall e, getrgb s = Py.Raised e ->
     (exists e', create_color_matched_template getrgb text_width opened title
                   false (Some s) = Py.Raised e') /\
     (forall img t b tf bf,
        opened = Py.Returned img ->
        returned (getrgb "white"%string) = true ->
        band_sources img = Py.Returned (t, b) ->
        fit_band getrgb top_image_height t = Py.Returned tf ->
        fit_band getrgb bottom_image_height b = Py.Returned bf ->
        create_color_matched_template getrgb text_width opened title
          false (Some s) = Py.Raised e)) /\
  (forall cv color,
     create_color_matched_template getrgb text_width opened title
       false (Some s) = Py.Returned (cv, color) ->
     color = s /\ In (Rectangle 0 400 735 520 s) cv /\
     returned (getrgb s) = true).
Proof.
  intros Hs.
  assert (Hres : forall img, resolve_color img false (Some s) = Py.Returned s)
    by (intros img; now apply resolve_manual_nonempty).
  assert (Hret : forall cv color,
     create_color_matched_template getrgb text_width opened title
       false (Some s) = Py.Returned (cv, color) ->
     color = s /\ In (Rectangle 0 400 735 520 s) cv /\
     returned (getrgb s) = true).
  { intros cv color H.
    apply render_returned in H
      as (img & t & b & tf & bf & ext & _ & Hc & _ & _ & _ & Hp & -> & _).
    rewrite Hres in Hc. injection Hc as <-.
    repeat split; [| exact Hp]. simpl. tauto. }
  split; [exact Hres | split; [| exact Hret]].
  intros e He. split.
  - destruct (create_color_matched_template getrgb text_width opened title
                false (Some s)) as [[cv color] | e'] eqn:E; [| eauto].
    destruct (Hret cv color eq_refl) as (_ & _ & Hp).
    rewrite He in Hp. discriminate.
  - intros img t b tf bf -> Hwhite Hsrc Ht Hb.
    unfold create_color_matched_template. cbn [Py.bind].
    rewrite Hres. cbn [Py.bind]. unfold new_image.
    destruct (getrgb "white"%string); [| discriminate]. cbn [Py.bind].
    rewrite Hsrc. cbn [Py.bind]. rewrite Ht. cbn [Py.bind].
    rewrite Hb. cbn [Py.bind].
    unfold draw_rectangle at 1. rewrite He. reflexivity.
Qed.

Lemma manual_color_passed_to_parser_witness :
  create_color_matched_template Examples.strict_getrgb Examples.mono_width
    (Py.Returned Examples.landscape) "Weeknight dinner" false
    (Some "banana"%string)
  = Py.Raised (Py.ValueError "unknown color specifier: banana").
Proof.
  destruct (manual_color_passed_to_parser Examples.strict_getrgb
              Examples.mono_width (Py.Returned Examples.landscape)
              "Weeknight dinner" "banana" ltac:(discriminate))
    as (_ & Hraise & _).
  destruct (Hraise (Py.ValueError "unknown color specifier: banana") eq_refl)
    as (_ & Hexact).
  apply (Hexact Examples.landscape (whole Examples.landscape)
           (whole Examples.landscape)
           (Band (Box 0 0 1600 900) 413 (CropToFill 6) 735 400)
           (Band (Box 0 0 1600 900) 413 (Letterbox 84) 735 582));
    vm_compute; reflexivity.
Defined.

(** C4 as stated fails: the empty string is a malformed colour, yet the
    render returns a canvas whose banner is painted in the default colour,
    which is also the colour returned. *)
Lemma empty_manual_color_replaced :
  Examples.rrggbb "" = None /\
  exists rest,
    create_color_matched_template Examples.strict_getrgb Examples.mono_width
      (Py.Returned Examples.landscape) "" false (Some ""%string)
    = Py.Returned
        (Paste TopSlot
           (Band (Box 0 0 1600 900) 413 (CropToFill 6) 735 400) 0 0
         :: Paste BottomSlot
              (Band (Box 0 0 1600 900) 413 (Letterbox 84) 735 582) 0 520
         :: Rectangle 0 400 735 520 "#FF9800" :: rest, "#FF9800"%string).
Proof.
  split; [reflexivity |].
  eexists. vm_compute. reflexivity.
Qed.

End BannerSpec.

(** ** Text layout *)

Module WrapFacts.
Import TemplateComposer Facts.

Lemma split_from_nonempty s word :
  Forall (fun w => nonempty w = true) (split_from s word).
Proof.
  revert word. induction s as [| c t IH]; intros word; simpl.
  - destruct (nonempty word) eqn:E; repeat constructor. exact E.
  - destruct (is_space c).
    + destruct (nonempty word) eqn:E; [constructor; [exact E |] |]; apply IH.
    + apply IH.
Qed.

Lemma split_nonempty s : Forall (fun w => nonempty w = true) (split s).
Proof. apply split_from_nonempty. Qed.

Lemma nonempty_add_word line word :
  nonempty word = true -> nonempty (add_word line word) = true.
Proof.
  unfold add_word. destruct line as [| c line]; simpl; [| reflexivity].
  now intros ->.
Qed.

Lemma line_of_snoc g w : line_of (g ++ [w]) = add_word (line_of g) w.
Proof. unfold line_of. now rewrite fold_left_app. Qed.

Lemma line_of_single w : line_of [w] = w.
Proof. reflexivity. Qed.

Section Wrapping.
Variable text_width : string -> Z.

#[local] Abbreviation fits := (Facts.fits text_width).
#[local] Abbreviation alone := (Facts.alone text_width).
#[local] Abbreviation wrap_inv := (Facts.wrap_inv text_width).

Lemma forced_breaks_closed groups g next :
  forced_breaks text_width (groups ++ [g]) ->
  break_forced text_width g next ->
  forced_breaks text_width ((groups ++ [g]) ++ [next]).
Proof.
  induction groups as [| a groups IH]; simpl; intros H Hbreak.
  - tauto.
  - destruct H as [Ha Hrest]. split; [| now apply IH].
    destruct groups; exact Ha.
Qed.

Lemma forced_breaks_extended groups g w :
  g <> [] ->
  forced_breaks text_width (groups ++ [g]) ->
  forced_breaks text_width (groups ++ [g ++ [w]]).
Proof.
  intros Hg. induction groups as [| a groups IH]; simpl; intros H.
  - tauto.
  - destruct H as [Ha Hrest]. split; [| now apply IH].
    destruct groups as [| b groups]; simpl in *; [| exact Ha].
    destruct g as [| x g]; [congruence | exact Ha].
Qed.

Lemma wrap_inv_initial : wrap_inv ([], EmptyString) [] [].
Proof.
  constructor; simpl.
  - reflexivity.
  - reflexivity.
  - reflexivity.
  - congruence.
  - constructor.
  - constructor.
  - intros H. simpl in H. lia.
  - reflexivity.
  - tauto.
  - intros _. split; [constructor | intros w []].
Qed.

Lemma wrap_word_inv st closed g w :
  wrap_inv st closed g -> nonempty w = true ->
  exists closed' g',
    wrap_inv (wrap_word text_width st w) closed' g' /\
    List.concat closed' ++ g' = (List.concat closed ++ g) ++ [w].
Proof.
  intros [Hlines Hcur Hempty Hstarted Hne Hfit Hgfit Hfirst Hforced Halone] Hw.
  destruct st as [lines cur]. simpl in *.
  unfold wrap_word. fold (add_word cur w).
  destruct ((TemplateComposer.max_width <? text_width (add_word cur w))
            && nonempty cur) eqn:Hbreak.
  - apply andb_true_iff in Hbreak as [Hwide Hcurne].
    assert (Hg : g <> []).
    { intros ->. rewrite Hcur in Hcurne. discriminate. }
    exists (closed ++ [g]), [w]. split.
    + constructor; simpl.
      * now rewrite map_app, Hlines, Hcur.
      * reflexivity.
      * rewrite Hw. discriminate.
      * intros _. exact Hw.
      * apply Forall_app. split; [assumption | now constructor].
      * apply Forall_app. split; [assumption | now constructor].
      * intros H. simpl in H. lia.
      * discriminate.
      * apply forced_breaks_closed; [exact Hforced |].
        simpl. rewrite <- Hcur. now apply Z.ltb_lt.
      * intros Hmono. destruct (Halone Hmono) as [Hc Hga]. split.
        -- apply Forall_app. split; [assumption | now constructor].
        -- intros w' [<- | []] _. reflexivity.
    + rewrite concat_app. simpl. now rewrite app_nil_r.
  - exists closed, (g ++ [w]). split; [| now rewrite !app_assoc].
    assert (Hcases : nonempty cur = false \/
                     text_width (add_word cur w) <= TemplateComposer.max_width).
    { apply andb_false_iff in Hbreak as [Hle | Hnone]; [right | now left].
      now apply Z.ltb_ge. }
    constructor; simpl.
    + exact Hlines.
    + now rewrite line_of_snoc, Hcur.
    + rewrite nonempty_add_word by exact Hw. discriminate.
    + intros _. now apply nonempty_add_word.
    + exact Hne.
    + exact Hfit.
    + intros Hlen. rewrite line_of_snoc, <- Hcur.
      destruct Hcases as [Hnone | Hle]; [| exact Hle].
      rewrite (Hempty Hnone) in Hlen. simpl in Hlen. lia.
    + intros E. destruct g; discriminate.
    + destruct g as [| x g0] eqn:Eg.
      * rewrite (Hfirst eq_refl). simpl. tauto.
      * apply forced_breaks_extended; [discriminate | exact Hforced].
    + intros Hmono. destruct (Halone Hmono) as [Hc Hga].
      split; [exact Hc |].
      destruct Hcases as [Hnone | Hle].
      * rewrite (Hempty Hnone). intros w' [<- | []] _. reflexivity.
      * destruct (Hmono cur w) as [Hmcur Hmw].
        intros w' Hin Hwide. exfalso.
        apply in_app_or in Hin as [Hin | [<- | []]]; [| lia].
        pose proof (Hga w' Hin Hwide) as Hsingle.
        rewrite Hsingle, line_of_single in Hcur. subst cur. lia.
Qed.

Lemma wrap_loop_inv words st closed g :
  Forall (fun w => nonempty w = true) words ->
  wrap_inv st closed g ->
  exists closed' g',
    wrap_inv (fold_left (wrap_word text_width) words st) closed' g' /\
    List.concat closed' ++ g' = (List.concat closed ++ g) ++ words.
Proof.
  revert st closed g.
  induction words as [| w words IH]; intros st closed g Hwords Hinv.
  - exists closed, g. now rewrite app_nil_r.
  - inversion Hwords as [| ? ? Hw Hrest]; subst. cbn [fold_left].
    destruct (wrap_word_inv st closed g w Hinv Hw) as (c1 & g1 & Hinv1 & E1).
    destruct (IH _ _ _ Hrest Hinv1) as (c2 & g2 & Hinv2 & E2).
    exists c2, g2. split; [exact Hinv2 |].
    rewrite E2, E1. now rewrite <- !app_assoc.
Qed.

(** The lines are the groups of a partition of the words, in order. *)
Lemma wrap_groups words :
  Forall (fun w => nonempty w = true) words ->
  exists groups,
    wrap text_width words = map line_of groups /\
    List.concat groups = words /\
    Forall (fun g => g <> []) groups /\
    Forall fits groups /\
    forced_breaks text_width groups /\
    (monotone text_width -> Forall alone groups).
Proof.
  intros Hwords.
  destruct (wrap_loop_inv words _ _ _ Hwords wrap_inv_initial)
    as (closed & g &
        [Hlines Hcur Hempty Hstarted Hne Hfit Hgfit Hfirst Hforced Halone]
        & E).
  simpl in E. unfold wrap.
  destruct (fold_left (wrap_word text_width) words ([], EmptyString))
    as [lines cur].
  simpl in *.
  destruct (nonempty cur) eqn:Hc.
  - assert (Hg : g <> []).
    { intros ->. rewrite Hcur in Hc. discriminate. }
    exists (closed ++ [g]).
    split; [now rewrite map_app, Hlines, Hcur |].
    split; [rewrite concat_app; simpl; now rewrite app_nil_r |].
    split; [apply Forall_app; split; [assumption | now constructor] |].
    split; [apply Forall_app; split; [assumption | now constructor] |].
    split; [exact Hforced |].
    intros Hmono. destruct (Halone Hmono).
    apply Forall_app. split; [assumption | now constructor].
  - rewrite (Hempty eq_refl) in E. rewrite app_nil_r in E.
    pose proof (Hfirst (Hempty eq_refl)) as Hclosed.
    exists closed.
    split; [assumption |]. split; [assumption |]. split; [assumption |].
    split; [assumption |].
    split; [rewrite Hclosed; exact I |].
    intros Hmono. now destruct (Halone Hmono).
Qed.

(** A title with a word has a line. *)
Lemma wrap_worded words :
  Forall (fun w => nonempty w = true) words ->
  words <> [] -> wrap text_width words <> [].
Proof.
  intros Hwords Hne.
  destruct (wrap_groups words Hwords) as (groups & H1 & H2 & _).
  rewrite H1. intros E. apply map_eq_nil in E. subst groups.
  simpl in H2. congruence.
Qed.

End Wrapping.

End WrapFacts.

Module WrapSpec.
Import TemplateComposer Facts MoreFacts WrapFacts.

Lemma string_length_append (a b : string) :
  String.length (a ++ b) = (String.length a + String.length b)%nat.
Proof. induction a as [| c a IH]; simpl; [reflexivity | now rewrite IH]. Qed.

Lemma mono_width_monotone : monotone Examples.mono_width.
Proof.
  intros line word. unfold Examples.mono_width, add_word.
  rewrite !string_length_append. split; lia.
Qed.

(** C8.  For a title of ASCII characters and a measure of rendered width (a
    line is at least as wide as the line it extends and as the word added
    to it), the title is upper-cased and split into words, and the lines
    are consecutive groups of these words, joined by single spaces: the
    words appear in order, every word whole and in exactly one line; a
    line of two or more words is at most canvas_width - 80 = 655 wide; the
    wrapping is greedy, a line ending only where the first word of the next
    line would have made it wider than 655; and a word that alone is wider
    than 655 is a line by itself. *)
Theorem title_wrapped_in_order (text_width : string -> Z) (title : string) :
  all_chars is_ascii title = true ->
  monotone text_width ->
  exists groups : list (list string),
    text_layout text_width title = map line_of groups /\
    List.concat groups = split (Py.upper title) /\
    Forall (fun g => g <> []) groups /\
    Forall (fun g => (2 <= List.length g)%nat ->
                     text_width (line_of g) <= 655) groups /\
    forced_breaks text_width groups /\
    Forall (fun g => forall w, In w g -> 655 < text_width w -> g = [w])
           groups.
Proof.
  intros _ Hmono.
  destruct (wrap_groups text_width (split (Py.upper title))
              (split_nonempty _)) as (groups & H1 & H2 & H3 & H4 & H5 & H6).
  exists groups. repeat split; try assumption. now apply H6.
Qed.

(** A title whose third word, of 34 letters, is wider than the banner: it
    closes the line before it and stands alone. *)
Lemma title_wrapped_in_order_witness :
  exists groups : list (list string),
    ["EASY RECIPES"; "SUPERCALIFRAGILISTICEXPIALIDOCIOUS";
     "FOR HEALTHY EATING TONIGHT"]%string
    = map line_of groups /\
    List.concat groups
    = ["EASY"; "RECIPES"; "SUPERCALIFRAGILISTICEXPIALIDOCIOUS"; "FOR";
       "HEALTHY"; "EATING"; "TONIGHT"]%string /\
    Forall (fun g => g <> []) groups /\
    Forall (fun g => (2 <= List.length g)%nat ->
                     Examples.mono_width (line_of g) <= 655) groups /\
    forced_breaks Examples.mono_width groups /\
    Forall (fun g => forall w, In w g -> 655 < Examples.mono_width w ->
                     g = [w]) groups.
Proof.
  exact (title_wrapped_in_order Examples.mono_width
           "Easy recipes supercalifragilisticexpialidocious for healthy eating tonight"
           eq_refl mono_width_monotone).
Defined.

End WrapSpec.

(** * Further properties of the code *)

(** ** Fitting a band: lines 188-224 of design.py *)

Module FitSpec.
Import LayoutPlanner TemplateComposer Facts ComposerFacts.

(** What a returned fit consists of. *)
Lemma fit_band_returned getrgb target p b :
  fit_band getrgb target p = Py.Returned b ->
  scaled_height p = Py.Returned (band_scaled_height b) /\
  1 <= band_scaled_height b /\
  band_fit b
  = (if band_scaled_height b >=? target
     then CropToFill ((band_scaled_height b - target) / 2)
     else Letterbox ((target - band_scaled_height b) / 2)).
Proof.
  unfold fit_band. intros H.
  apply bind_returned in H as (scaled & Hs & H).
  apply bind_returned in H as ([] & Hr & H).
  assert (Hpos : 1 <= scaled).
  { unfold resize in Hr. change canvas_width with 735 in Hr. simpl in Hr.
    destruct (Z.ltb_spec scaled 1); [discriminate | lia]. }
  destruct (scaled >=? target) eqn:Hge.
  - injection H as <-. simpl. now rewrite Hge.
  - apply bind_returned in H as ([] & _ & H). injection H as <-.
    simpl. now rewrite Hge.
Qed.

(** X1.  A band whose scaled picture is at least as high as the band is
    cut from the centre: the cut window lies inside the scaled picture and
    what is cut off above and below differs by at most one row, the extra
    row being cut below. *)
Theorem crop_to_fill_centred getrgb target p b crop_start :
  fit_band getrgb target p = Py.Returned b ->
  band_fit b = CropToFill crop_start ->
  target <= band_scaled_height b /\
  0 <= crop_start /\
  crop_start + target <= band_scaled_height b /\
  0 <= (band_scaled_height b - (crop_start + target)) - crop_start <= 1.
Proof.
  intros H Hfit. apply fit_band_returned in H as (_ & _ & Hb).
  rewrite Hfit in Hb.
  destruct (Z.geb_spec (band_scaled_height b) target) as [Hge | Hlt];
    [| discriminate].
  injection Hb as ->.
  pose proof (Z.div_mod (band_scaled_height b - target) 2 ltac:(lia)).
  pose proof (Z.mod_pos_bound (band_scaled_height b - target) 2 ltac:(lia)).
  lia.
Qed.

Lemma crop_to_fill_centred_witness :
  400 <= 413 /\ 0 <= 6 /\ 6 + 400 <= 413 /\ 0 <= (413 - (6 + 400)) - 6 <= 1.
Proof.
  apply (crop_to_fill_centred Examples.strict_getrgb 400
           (whole Examples.landscape)
           (Band (Box 0 0 1600 900) 413 (CropToFill 6) 735 400) 6).
  - vm_compute. reflexivity.
  - reflexivity.
Defined.

(** X2.  A band whose scaled picture is lower than the band is centred on
    the white band: the picture, at least one row high, lies inside the
    band and the white margins above and below differ by at most one row,
    the extra row being below. *)
Theorem letterbox_centred getrgb target p b paste_y :
  fit_band getrgb target p = Py.Returned b ->
  band_fit b = Letterbox paste_y ->
  1 <= band_scaled_height b < target /\
  0 <= paste_y /\
  paste_y + band_scaled_height b <= target /\
  0 <= (target - (paste_y + band_scaled_height b)) - paste_y <= 1.
Proof.
  intros H Hfit. apply fit_band_returned in H as (_ & Hpos & Hb).
  rewrite Hfit in Hb.
  destruct (Z.geb_spec (band_scaled_height b) target) as [Hge | Hlt];
    [discriminate |].
  injection Hb as ->.
  pose proof (Z.div_mod (target - band_scaled_height b) 2 ltac:(lia)).
  pose proof (Z.mod_pos_bound (target - band_scaled_height b) 2 ltac:(lia)).
  lia.
Qed.

Lemma letterbox_centred_witness :
  1 <= 413 < 582 /\ 0 <= 84 /\ 84 + 413 <= 582 /\
  0 <= (582 - (84 + 413)) - 84 <= 1.
Proof.
  apply (letterbox_centred Examples.strict_getrgb 582
           (whole Examples.landscape)
           (Band (Box 0 0 1600 900) 413 (Letterbox 84) 735 582) 84).
  - vm_compute. reflexivity.
  - reflexivity.
Defined.

(** X3.  A picture whose scaled height equals the band height takes the
    crop path with offset 0: the whole scaled picture is the band, nothing
    is cut and no white band is created (so the colour parser is not
    asked for "white"). *)
Theorem exact_height_taken_whole getrgb target p :
  scaled_height p = Py.Returned target ->
  1 <= target ->
  fit_band getrgb target p
  = Py.Returned (Band (pic_source p) target (CropToFill 0) canvas_width target).
Proof.
  intros Hs Hpos. unfold fit_band. rewrite Hs. cbn [Py.bind].
  unfold resize. change canvas_width with 735.
  destruct (Z.ltb_spec 735 1); [lia |].
  destruct (Z.ltb_spec target 1); [lia |]. cbn [orb Py.bind].
  destruct (Z.geb_spec target target); [| lia].
  rewrite Z.sub_diag. simpl. unfold crop. simpl.
  change (0 / 2) with 0. now rewrite Z.sub_0_r.
Qed.

Lemma exact_height_taken_whole_witness :
  fit_band (fun _ => Py.Raised Py.OverflowError) 400
           (Picture 735 400 (Box 0 0 735 400))
  = Py.Returned (Band (Box 0 0 735 400) 400 (CropToFill 0) 735 400).
Proof.
  apply (exact_height_taken_whole (fun _ => Py.Raised Py.OverflowError) 400
           (Picture 735 400 (Box 0 0 735 400))).
  - vm_compute. reflexivity.
  - lia.
Defined.

(** X4.  An image that is not classified as a grid feeds both bands with the
    whole image: on a returned canvas the two pasted bands have the same
    source box and the same scaled height, and each is cut or letterboxed
    according to its own band height. *)
Theorem single_image_feeds_both_bands
    getrgb text_width img title use_auto_color manual_color cv color :
  is_grid (width img) (height img) = Py.Returned false ->
  create_color_matched_template getrgb text_width (Py.Returned img) title
    use_auto_color manual_color = Py.Returned (cv, color) ->
  exists top_final bottom_final rest scaled,
    cv = Paste TopSlot top_final 0 0
         :: Paste BottomSlot bottom_final 0 520 :: rest /\
    band_source top_final = Box 0 0 (width img) (height img) /\
    band_source bottom_final = Box 0 0 (width img) (height img) /\
    band_scaled_height top_final = scaled /\
    band_scaled_height bottom_final = scaled /\
    band_fit top_final
    = (if scaled >=? 400 then CropToFill ((scaled - 400) / 2)
       else Letterbox ((400 - scaled) / 2)) /\
    band_fit bottom_final
    = (if scaled >=? 582 then CropToFill ((scaled - 582) / 2)
       else Letterbox ((582 - scaled) / 2)).
Proof.
  intros Hgrid H.
  apply render_returned in H
    as (img' & t & b & tf & bf & ext & Himg & _ & Hs & Ht & Hb & _ & -> & _).
  injection Himg as <-.
  unfold band_sources in Hs. rewrite Hgrid in Hs. simpl in Hs.
  injection Hs as <- <-.
  pose proof (fit_band_size _ _ _ _ Ht) as (_ & _ & Hts).
  pose proof (fit_band_size _ _ _ _ Hb) as (_ & _ & Hbs).
  apply fit_band_returned in Ht as (Hst & _ & Hft).
  apply fit_band_returned in Hb as (Hsb & _ & Hfb).
  rewrite Hst in Hsb. injection Hsb as Hsame.
  exists tf, bf. eexists. exists (band_scaled_height tf).
  split; [reflexivity |].
  split; [exact Hts |]. split; [exact Hbs |].
  split; [reflexivity |]. split; [now symmetry |].
  split; [exact Hft |]. now rewrite Hsame.
Qed.

Lemma single_image_feeds_both_bands_witness :
  match create_color_matched_template Examples.strict_getrgb
          Examples.mono_width (Py.Returned Examples.landscape) ""
          false (Some "#112233"%string) with
  | Py.Returned (cv, _) =>
      exists top_final bottom_final rest scaled,
        cv = Paste TopSlot top_final 0 0
             :: Paste BottomSlot bottom_final 0 520 :: rest /\
        band_source top_final = Box 0 0 1600 900 /\
        band_source bottom_final = Box 0 0 1600 900 /\
        band_scaled_height top_final = scaled /\
        band_scaled_height bottom_final = scaled /\
        band_fit top_final
        = (if scaled >=? 400 then CropToFill ((scaled - 400) / 2)
           else Letterbox ((400 - scaled) / 2)) /\
        band_fit bottom_final
        = (if scaled >=? 582 then CropToFill ((scaled - 582) / 2)
           else Letterbox ((582 - scaled) / 2))
  | Py.Raised _ => False
  end.
Proof.
  destruct (create_color_matched_template Examples.strict_getrgb
              Examples.mono_width (Py.Returned Examples.landscape) ""
              false (Some "#112233"%string)) as [[cv color] | e] eqn:E.
  - apply (single_image_feeds_both_bands Examples.strict_getrgb
             Examples.mono_width Examples.landscape ""
             false (Some "#112233"%string) cv color).
    + vm_compute. reflexivity.
    + exact E.
  - vm_compute in E. discriminate.
Defined.

End FitSpec.

(** ** The drawing calls of a returned canvas: lines 229-291 of design.py *)

Module CanvasSpec.
Import LayoutPlanner TemplateComposer Facts MoreFacts ComposerFacts.

Lemma for_each_appends {A : Type} (body : canvas -> A -> Py.outcome canvas)
    (ops : A -> list draw_op) (xs : list A) :
  (forall cv x cv', body cv x = Py.Returned cv' -> cv' = cv ++ ops x) ->
  forall cv cv', for_each body xs cv = Py.Returned cv' ->
     cv' = cv ++ flat_map ops xs.
Proof.
  intros Hbody. induction xs as [| x xs IH]; simpl; intros cv cv' H.
  - injection H as <-. now rewrite app_nil_r.
  - apply bind_returned in H as (cv1 & H1 & H).
    apply Hbody in H1 as ->. apply IH in H as ->.
    now rewrite app_assoc.
Qed.

Lemma flat_map_single {A B : Type} (f : A -> B) (xs : list A) :
  flat_map (fun x => [f x]) xs = map f xs.
Proof. induction xs as [| x xs IH]; simpl; [reflexivity | now rewrite IH]. Qed.

Lemma dotted_line_dots getrgb y0 y1 cv cv' :
  dotted_line getrgb y0 y1 cv = Py.Returned cv' -> cv' = cv ++ dots y0 y1.
Proof.
  unfold dotted_line, dots. intros H.
  rewrite <- flat_map_single.
  revert H. apply for_each_appends.
  intros cv0 x cv1 H. now apply draw_rectangle_returned in H as [-> _].
Qed.

Lemma draw_line_ops getrgb text_width n cv entry cv' :
  draw_line getrgb text_width
            (top_image_height + (banner_height - n * 42) / 2) cv entry
  = Py.Returned cv' ->
  cv' = cv ++ line_ops text_width n entry.
Proof.
  destruct entry as [i line]. unfold draw_line, line_ops. intros H.
  apply bind_returned in H as (cv1 & H1 & H).
  apply bind_returned in H as (cv2 & H2 & H).
  apply draw_text_returned in H1, H2, H. subst.
  now rewrite <- !app_assoc.
Qed.

(** The drawing calls of a returned canvas, in order. *)
Lemma returned_canvas_shape
    getrgb text_width opened title use_auto_color manual_color cv color :
  create_color_matched_template getrgb text_width opened title
    use_auto_color manual_color = Py.Returned (cv, color) ->
  exists top_final bottom_final,
    cv = [Paste TopSlot top_final 0 0;
          Paste BottomSlot bottom_final 0 520;
          Rectangle 0 400 735 520 color]
         ++ dots 415 419 ++ dots 501 505
         ++ flat_map
              (line_ops text_width
                 (Z.of_nat (List.length (text_layout text_width title))))
              (enumerate_from 0 (text_layout text_width title)).
Proof.
  unfold create_color_matched_template. intros H.
  apply bind_returned in H as (img & _ & H).
  apply bind_returned in H as (detected & _ & H).
  apply bind_returned in H as ([] & _ & H).
  apply bind_returned in H as ([top_image bottom_image] & _ & H).
  apply bind_returned in H as (top_final & _ & H).
  apply bind_returned in H as (bottom_final & _ & H).
  apply bind_returned in H as (cv3 & H3 & H).
  apply bind_returned in H as (cv4 & H4 & H).
  apply bind_returned in H as (cv5 & H5 & H).
  apply bind_returned in H as (cv6 & H6 & H).
  injection H as <- <-.
  apply draw_rectangle_returned in H3 as [-> _].
  apply dotted_line_dots in H4 as ->.
  apply dotted_line_dots in H5 as ->.
  apply (for_each_appends _ _ _ (draw_line_ops getrgb text_width _)) in H6
    as ->.
  exists top_final, bottom_final.
  rewrite <- !app_assoc. reflexivity.
Qed.

Lemma dots_placed y0 y1 op :
  In op (dots y0 y1) ->
  exists x, op = Rectangle x y0 (x + 4) y1 "white" /\
            20 <= x <= 704 /\ (x - 20) mod 12 = 0.
Proof.
  unfold dots. intros H. apply in_map_iff in H as (x & <- & Hx).
  exists x. split; [reflexivity |].
  assert (C : forallb (fun x => (20 <=? x) && (x <=? 704)
                                && ((x - 20) mod 12 =? 0))
                      (range 20 (canvas_width - 20) 12) = true)
    by (vm_compute; reflexivity).
  rewrite forallb_forall in C. specialize (C x Hx).
  rewrite !andb_true_iff, !Z.leb_le, Z.eqb_eq in C. lia.
Qed.



End CanvasSpec.

(** ** The analyzer: what the detected colour depends on *)

Module DetectionSpec.
Import ColorAnalyzer Facts MoreFacts TableFacts AnalyzerFacts BucketChecks.

Lemma fold_consider_origin total entries st c :
  fst (fold_left (consider total) entries st) = Some c ->
  fst st = Some c \/ (In c (keys entries) /\ eligible c = true).
Proof.
  revert st. induction entries as [| [k n] rest IH]; intros st H.
  - now left.
  - cbn [fold_left] in H. apply IH in H as [H | [Hin He]].
    + unfold consider in H.
      destruct (eligible k) eqn:Hk; cbn [andb] in H.
      * destruct (Py.lt (snd st) (vibrancy_score k n total)).
        -- cbn [fst] in H. injection H as <-. right. split; [now left | exact Hk].
        -- now left.
      * now left.
    + right. split; [now right | exact He].
Qed.

Lemma select_origin total entries c :
  fst (select total entries) = Some c ->
  In c (keys entries) /\ eligible c = true.
Proof.
  intros H. apply fold_consider_origin in H as [H | H]; [discriminate | exact H].
Qed.

(** Where a detected colour comes from. *)
Lemma detect_origin (pixels : list rgb) :
  detect_dominant_color (Py.Returned pixels) = Py.Returned default_color \/
  exists p c,
    In p pixels /\ very_light p = false /\ eligible (group p) = true /\
    post_process (group p) = Py.Returned c /\
    detect_dominant_color (Py.Returned pixels) = Py.Returned (hex_color c).
Proof.
  unfold detect_dominant_color, try_block. cbn [Py.bind].
  rewrite analyze_pixels_eq.
  destruct (Z.of_nat (List.length (filtered pixels)) =? 0); [now left |].
  destruct (fst (select _ _)) as [best |] eqn:Hsel; [| now left].
  apply select_origin in Hsel as [Hin He].
  apply (proj1 (keys_unique_table _ _)) in Hin.
  apply in_map_iff in Hin as (p & <- & Hp).
  apply filtered_in in Hp as [Hp Hl].
  destruct (post_process (group p)) as [c | e] eqn:Hpost; [| now left].
  right. exists p, c. cbn [Py.bind]. now repeat split.
Qed.

(** X9.  The analyzer never returns a colour derived from an ineligible
    bucket or from a pixel it filtered out: its result is either the default
    colour or the post-processed colour of the bucket of some sampled pixel
    that is not near-white and whose bucket passes the eligibility test. *)
Theorem detected_color_origin (pixels : list rgb) :
  detect_dominant_color (Py.Returned pixels) = Py.Returned default_color \/
  exists p c,
    In p pixels /\ very_light p = false /\ eligible (group p) = true /\
    post_process (group p) = Py.Returned c /\
    detect_dominant_color (Py.Returned pixels) = Py.Returned (hex_color c).
Proof. apply detect_origin. Qed.

(** X10.  On a sample of 8-bit pixels, and when the sampling itself fails,
    the analyzer returns a string of seven characters: a sharp sign and six
    upper-case hexadecimal digits. *)
Theorem detected_color_is_hex (sampled : Py.outcome (list rgb)) :
  (forall pixels, sampled = Py.Returned pixels -> Forall wf_pixel pixels) ->
  exists hex,
    detect_dominant_color sampled = Py.Returned hex /\
    hex_color_of upper_hex_digit hex = true.
Proof.
  intros Hwf. destruct sampled as [pixels | e].
  - specialize (Hwf pixels eq_refl). rewrite Forall_forall in Hwf.
    destruct (detect_origin pixels)
      as [-> | (p & c & Hp & _ & He & Hpost & ->)].
    + exists default_color. split; reflexivity.
    + exists (hex_color c). split; [reflexivity |].
      assert (C : forallb
                (fun b => match post_process b with
                          | Py.Returned c' =>
                              hex_color_of upper_hex_digit (hex_color c')
                          | Py.Raised _ => true
                          end) all_buckets = true) by (vm_compute; reflexivity).
      pose proof (check_buckets _ C (group p)
                    (group_in_buckets p (Hwf p Hp))) as H.
      cbv beta in H. now rewrite Hpost in H.
  - exists default_color. split; reflexivity.
Qed.

Lemma detected_color_is_hex_witness :
  exists hex,
    detect_dominant_color
      (Py.Returned [RGB 200 80 40; RGB 250 250 250; RGB 10 20 30])
    = Py.Returned hex /\
    hex_color_of upper_hex_digit hex = true.
Proof.
  apply detected_color_is_hex.
  intros pixels E. injection E as <-.
  repeat constructor; unfold uint8; simpl; lia.
Defined.

Lemma detect_by_filtered a b :
  filtered a = filtered b ->
  detect_dominant_color (Py.Returned a) = detect_dominant_color (Py.Returned b).
Proof.
  intros E. unfold detect_dominant_color, try_block. cbn [Py.bind].
  now rewrite !analyze_pixels_eq, E.
Qed.

(** X11.  Near-white pixels (all three channels above 240) do not take part
    in the analysis: inserting any number of them anywhere in the sample,
    or removing them, leaves the detected colour unchanged; they do not
    even count in the frequency term. *)
Theorem near_white_pixels_ignored (before after whites : list rgb) :
  Forall (fun p => very_light p = true) whites ->
  detect_dominant_color (Py.Returned (before ++ whites ++ after))
  = detect_dominant_color (Py.Returned (before ++ after)).
Proof.
  intros Hw. apply detect_by_filtered. unfold filtered.
  rewrite !filter_app.
  assert (E : filter (fun p => negb (very_light p)) whites = []).
  { induction Hw as [| p ws Hp _ IH]; simpl; [reflexivity |].
    now rewrite Hp. }
  now rewrite E.
Qed.

Lemma near_white_pixels_ignored_witness :
  detect_dominant_color
    (Py.Returned ([RGB 200 80 40] ++ [RGB 255 255 255; RGB 241 250 245]
                  ++ [RGB 10 20 30]))
  = detect_dominant_color (Py.Returned ([RGB 200 80 40] ++ [RGB 10 20 30])).
Proof.
  apply near_white_pixels_ignored.
  repeat constructor.
Defined.

(** The table of [np.unique] does not depend on the order of the rows. *)
Ltac order_facts :=
  repeat match goal with
  | H : compare_rgb ?x ?y = Eq |- _ => apply compare_rgb_eq in H; subst
  | H : compare_rgb ?x ?y = Gt |- _ => apply compare_rgb_gt in H
  | H : compare_rgb ?x ?y = Lt |- _ => change (lt_rgb x y) in H
  end.

Ltac order_contradiction :=
  exfalso;
  match goal with
  | H : lt_rgb ?x ?x |- _ => exact (lt_rgb_irrefl _ H)
  | H1 : lt_rgb ?x ?y, H2 : lt_rgb ?y ?x |- _ =>
      exact (lt_rgb_irrefl _ (lt_rgb_trans _ _ _ H1 H2))
  | H1 : lt_rgb ?x ?y, H2 : lt_rgb ?y ?z, H3 : lt_rgb ?z ?x |- _ =>
      exact (lt_rgb_irrefl _
               (lt_rgb_trans _ _ _ H1 (lt_rgb_trans _ _ _ H2 H3)))
  end.

Ltac split_comparisons :=
  repeat (match goal with
          | |- context [compare_rgb ?x ?y] =>
              destruct (compare_rgb x y) eqn:?
          end; cbn [tally]).

Lemma tally_comm a b t : tally a (tally b t) = tally b (tally a t).
Proof.
  induction t as [| [k c] rest IH]; cbn [tally]; split_comparisons;
    first [ reflexivity
          | congruence
          | now rewrite IH
          | order_facts;
            first [ reflexivity | (f_equal; f_equal; lia) | order_contradiction ] ].
Qed.

Lemma unique_table_permutation rows rows' :
  Permutation rows rows' -> unique_table rows = unique_table rows'.
Proof.
  induction 1 as [| x l l' _ IH | x y l | l l' l'' _ IH1 _ IH2]; simpl.
  - reflexivity.
  - now rewrite IH.
  - apply tally_comm.
  - now rewrite IH1.
Qed.

Lemma filter_permutation {A : Type} (f : A -> bool) (l l' : list A) :
  Permutation l l' -> Permutation (filter f l) (filter f l').
Proof.
  induction 1 as [| x l l' _ IH | x y l | l l' l'' _ IH1 _ IH2]; simpl.
  - constructor.
  - destruct (f x); [now constructor | exact IH].
  - destruct (f x), (f y); try reflexivity. constructor.
  - now transitivity (filter f l').
Qed.

(** X12.  The detected colour does not depend on the order of the sampled
    pixels: any rearrangement of the sample (a mirrored or rotated image,
    for instance) gives the same colour, ties between buckets included,
    since the buckets are always visited in lexicographic order. *)
Theorem detection_order_independent (pixels pixels' : list rgb) :
  Permutation pixels pixels' ->
  detect_dominant_color (Py.Returned pixels)
  = detect_dominant_color (Py.Returned pixels').
Proof.
  intros P.
  assert (Pf : Permutation (filtered pixels) (filtered pixels'))
    by now apply filter_permutation.
  unfold detect_dominant_color, try_block. cbn [Py.bind].
  rewrite !analyze_pixels_eq.
  rewrite (Permutation_length Pf).
  rewrite (unique_table_permutation _ _ (Permutation_map group Pf)).
  reflexivity.
Qed.

Lemma detection_order_independent_witness :
  detect_dominant_color
    (Py.Returned [RGB 200 80 40; RGB 40 80 200; RGB 40 90 210])
  = detect_dominant_color
      (Py.Returned [RGB 40 90 210; RGB 200 80 40; RGB 40 80 200]).
Proof.
  apply detection_order_independent.
  apply Permutation_sym, (Permutation_cons_app [_; _] []). reflexivity.
Defined.

End DetectionSpec.

(** ** File names and files: lines 295-322 and 347-370 of design.py *)

Module AutomationSpec.
Import TemplateComposer Facts MoreFacts Automation.

Lemma all_chars_app f a b :
  all_chars f (a ++ b) = all_chars f a && all_chars f b.
Proof.
  induction a as [| c a IH]; simpl; [reflexivity |].
  now rewrite IH, andb_assoc.
Qed.

Lemma all_chars_weaken (f g : ascii -> bool) s :
  (forall c, f c = true -> g c = true) ->
  all_chars f s = true -> all_chars g s = true.
Proof.
  intros Hfg. induction s as [| c s IH]; simpl; [reflexivity |].
  rewrite !andb_true_iff. intros [Hc Hs]. split; [now apply Hfg | now apply IH].
Qed.

Lemma filter_chars_all f s : all_chars f (filter_chars f s) = true.
Proof.
  induction s as [| c s IH]; simpl; [reflexivity |].
  destruct (f c) eqn:E; simpl; [now rewrite E |exact IH].
Qed.

Lemma rstrip_all f s : all_chars f s = true -> all_chars f (rstrip s) = true.
Proof.
  induction s as [| c s IH]; simpl; [reflexivity |].
  rewrite andb_true_iff. intros [Hc Hs]. specialize (IH Hs).
  destruct (rstrip s) as [| c' t].
  - destruct (is_space c); simpl; [reflexivity | now rewrite Hc].
  - simpl in IH |- *. now rewrite Hc, IH.
Qed.

Lemma prefix_all f n s :
  all_chars f s = true -> all_chars f (substring 0 n s) = true.
Proof.
  revert s. induction n as [| n IH]; intros [| c s]; simpl; try reflexivity.
  rewrite !andb_true_iff. intros [Hc Hs]. split; [exact Hc | now apply IH].
Qed.

Lemma prefix_length n s : (String.length (substring 0 n s) <= n)%nat.
Proof.
  revert s. induction n as [| n IH]; intros [| c s]; simpl; try lia.
  specialize (IH s). lia.
Qed.

Lemma replace_spaces_length s :
  String.length (replace_spaces s) = String.length s.
Proof. induction s as [| c s IH]; simpl; [reflexivity | now rewrite IH]. Qed.

Lemma kept_replaced c :
  kept c = true ->
  filename_char (if Ascii.eqb c " " then "_"%char else c) = true.
Proof.
  unfold kept, filename_char.
  destruct (Ascii.eqb c " ") eqn:E; [reflexivity |].
  rewrite !orb_true_iff. intros [[[H | H] | H] | H]; auto. discriminate.
Qed.

Lemma replace_spaces_safe s :
  all_chars kept s = true -> all_chars filename_char (replace_spaces s) = true.
Proof.
  induction s as [| c s IH]; simpl; [reflexivity |].
  rewrite !andb_true_iff. intros [Hc Hs].
  split; [now apply kept_replaced | now apply IH].
Qed.

Lemma safe_title_chars title :
  all_chars filename_char (safe_title title) = true.
Proof.
  unfold safe_title.
  apply replace_spaces_safe, prefix_all, rstrip_all, filter_chars_all.
Qed.

Lemma safe_title_length title : (String.length (safe_title title) <= 30)%nat.
Proof.
  unfold safe_title. rewrite replace_spaces_length. apply prefix_length.
Qed.

(** X13.  For every title of ASCII characters, the name part made of it
    has at most 30 characters, each a letter, a digit, a hyphen or an
    underscore: no space, dot or path separator of the title reaches the
    file name. *)
Theorem safe_title_is_safe (title : string) :
  all_chars is_ascii title = true ->
  all_chars filename_char (safe_title title) = true /\
  (String.length (safe_title title) <= 30)%nat.
Proof.
  intros _. split; [apply safe_title_chars | apply safe_title_length].
Qed.

Lemma safe_title_is_safe_witness :
  all_chars filename_char
    (safe_title "Easy & quick: 10-minute recipes for busy weeknights!") = true /\
  (String.length
     (safe_title "Easy & quick: 10-minute recipes for busy weeknights!")
   <= 30)%nat.
Proof.
  apply safe_title_is_safe. vm_compute. reflexivity.
Defined.

Lemma filter_chars_fixed f s :
  all_chars f s = true -> filter_chars f s = s.
Proof.
  induction s as [| c s IH]; simpl; [reflexivity |].
  rewrite andb_true_iff. intros [Hc Hs]. now rewrite Hc, IH.
Qed.

Lemma rstrip_fixed s :
  all_chars (fun c => negb (is_space c)) s = true -> rstrip s = s.
Proof.
  induction s as [| c s IH]; simpl; [reflexivity |].
  rewrite andb_true_iff, negb_true_iff. intros [Hc Hs].
  rewrite (IH Hs). destruct s; [now rewrite Hc | reflexivity].
Qed.

Lemma prefix_fixed n s : (String.length s <= n)%nat -> substring 0 n s = s.
Proof.
  revert s. induction n as [| n IH]; intros [| c s]; simpl; intros H;
    try reflexivity; try lia.
  rewrite IH by lia. reflexivity.
Qed.

Lemma replace_spaces_fixed s :
  all_chars (fun c => negb (Ascii.eqb c " ")) s = true -> replace_spaces s = s.
Proof.
  induction s as [| c s IH]; simpl; [reflexivity |].
  rewrite andb_true_iff, negb_true_iff. intros [Hc Hs].
  now rewrite Hc, IH.
Qed.

Lemma filename_char_kept c : filename_char c = true -> kept c = true.
Proof.
  unfold filename_char, kept. rewrite !orb_true_iff. tauto.
Qed.

Lemma filename_char_not_space c :
  filename_char c = true -> negb (is_space c) = true.
Proof.
  destruct c as [[|] [|] [|] [|] [|] [|] [|] [|]]; vm_compute; congruence.
Qed.

Lemma filename_char_not_blank c :
  filename_char c = true -> negb (Ascii.eqb c " ") = true.
Proof.
  destruct c as [[|] [|] [|] [|] [|] [|] [|] [|]]; vm_compute; congruence.
Qed.

(** X14.  A title that is already a safe name (letters, digits, hyphens and
    underscores only, at most 30 characters) is taken as it is; in
    particular making a title safe twice changes nothing more. *)
Theorem safe_title_keeps_safe_names (title : string) :
  all_chars filename_char title = true ->
  (String.length title <= 30)%nat ->
  safe_title title = title /\
  safe_title (safe_title title) = safe_title title.
Proof.
  intros Hc Hl.
  assert (E : safe_title title = title).
  { unfold safe_title.
    rewrite filter_chars_fixed
      by (eapply all_chars_weaken; [apply filename_char_kept | exact Hc]).
    rewrite rstrip_fixed
      by (eapply all_chars_weaken; [apply filename_char_not_space | exact Hc]).
    rewrite prefix_fixed by exact Hl.
    apply replace_spaces_fixed.
    eapply all_chars_weaken; [apply filename_char_not_blank | exact Hc]. }
  now rewrite !E.
Qed.

Lemma safe_title_keeps_safe_names_witness :
  safe_title "10-minute_pasta" = "10-minute_pasta"%string /\
  safe_title (safe_title "10-minute_pasta") = safe_title "10-minute_pasta".
Proof.
  apply safe_title_keeps_safe_names.
  - vm_compute. reflexivity.
  - vm_compute. lia.
Defined.

Lemma decimal_chars n :
  all_chars filename_char (decimal n) = true.
Proof.
  unfold decimal, NilZero.string_of_int, NilZero.string_of_uint.
  assert (U : forall d, all_chars filename_char (NilEmpty.string_of_uint d)
                        = true).
  { induction d; simpl; try reflexivity; exact IHd. }
  destruct (Z.to_int n) as [d | d]; destruct d; simpl; try reflexivity;
    apply U.
Qed.

(** X15.  For every title of ASCII characters and every time stamp, the
    generated file name, [pinterest_], the safe title, an underscore, the
    time stamp and [.png], consists of letters, digits, hyphens,
    underscores and dots only, so that the title cannot put a slash, a
    backslash or a colon into it, and is at most 45 characters longer than
    the time stamp. *)
Theorem output_filename_has_no_separator (title : string) (now : Z) :
  all_chars is_ascii title = true ->
  all_chars name_char (output_filename title now) = true /\
  name_char "/" = false /\ name_char "\" = false /\ name_char ":" = false /\
  (String.length (output_filename title now)
   <= 45 + String.length (decimal now))%nat.
Proof.
  intros _.
  assert (Hweak : forall s, all_chars filename_char s = true ->
                            all_chars name_char s = true).
  { intros s. apply all_chars_weaken. intros c Hc.
    unfold name_char. now rewrite Hc. }
  split; [| split; [reflexivity | split; [reflexivity | split; [reflexivity |]]]].
  - unfold output_filename. rewrite !all_chars_app.
    rewrite (Hweak _ (safe_title_chars title)).
    rewrite (Hweak _ (decimal_chars now)). reflexivity.
  - unfold output_filename.
    rewrite !WrapSpec.string_length_append.
    pose proof (safe_title_length title). simpl. lia.
Qed.

Lemma output_filename_has_no_separator_witness :
  all_chars name_char (output_filename "a/b ../c" 1730000000) = true /\
  name_char "/" = false /\ name_char "\" = false /\ name_char ":" = false /\
  (String.length (output_filename "a/b ../c" 1730000000)
   <= 45 + String.length (decimal 1730000000))%nat.
Proof.
  apply output_filename_has_no_separator. vm_compute. reflexivity.
Defined.

(** *** Rendering and saving *)

(** A returned render reports the colour it resolved. *)
Lemma render_color getrgb text_width opened title auto manual cv col :
  create_color_matched_template getrgb text_width opened title auto manual
  = Py.Returned (cv, col) ->
  exists img,
    opened = Py.Returned img /\
    resolve_color img auto manual = Py.Returned col.
Proof.
  unfold create_color_matched_template. intros H.
  apply bind_returned in H as (img & Himg & H).
  apply bind_returned in H as (detected & Hcol & H).
  apply bind_returned in H as ([] & _ & H).
  apply bind_returned in H as ([top_image bottom_image] & _ & H).
  apply bind_returned in H as (top_final & _ & H).
  apply bind_returned in H as (bottom_final & _ & H).
  apply bind_returned in H as (cv3 & _ & H).
  apply bind_returned in H as (cv4 & _ & H).
  apply bind_returned in H as (cv5 & _ & H).
  apply bind_returned in H as (cv6 & _ & H).
  injection H as _ <-.
  exists img. now split.
Qed.

Lemma save_template_returned can_write image path fs fs' :
  save_template can_write image path fs = (Py.Returned tt, fs') ->
  fs' = fs ++ [(path, image)].
Proof.
  unfold save_template. destruct (can_write path); intros H.
  - now injection H as <-.
  - discriminate.
Qed.

(** X16.  The automation entry point always detects the colour itself and
    saves what it rendered: when it returns a path and a colour, the image
    was opened, the colour is the analyzer's result on its sample, the
    banner of the rendered canvas is painted in it, the path is the output
    directory joined with the generated file name, and the files written
    are those before the call followed by this one file holding the
    rendered canvas. *)
Theorem automation_saves_render
    getrgb text_width path_join makedirs can_write
    opened title output_dir now fs path col fs' :
  generate_color_matched_pinterest_template getrgb text_width path_join
    makedirs can_write opened title output_dir now fs
  = (Py.Returned (path, col), fs') ->
  exists img cv,
    opened = Py.Returned img /\
    ColorAnalyzer.detect_dominant_color (sampled img) = Py.Returned col /\
    create_color_matched_template getrgb text_width opened title true None
    = Py.Returned (cv, col) /\
    In (Rectangle 0 400 735 520 col) cv /\
    path = path_join output_dir (output_filename title now) /\
    fs' = fs ++ [(path, cv)].
Proof.
  unfold generate_color_matched_pinterest_template. intros H.
  destruct (makedirs output_dir) as [[] | e]; [| discriminate].
  destruct (create_color_matched_template getrgb text_width opened title
              true None) as [[cv c] | e] eqn:R; [| discriminate].
  destruct (save_template can_write cv
              (path_join output_dir (output_filename title now)) fs)
    as [[[] | e] fs1] eqn:S; [| discriminate].
  injection H as <- <- <-.
  destruct (render_color _ _ _ _ _ _ _ _ R) as (img & Himg & Hcol).
  destruct (CanvasSpec.returned_canvas_shape _ _ _ _ _ _ _ _ R)
    as (top_final & bottom_final & Hcv).
  exists img, cv. split; [exact Himg |]. split; [exact Hcol |].
  split; [reflexivity |]. split.
  - rewrite Hcv. simpl. right. right. now left.
  - split; [reflexivity |]. exact (save_template_returned _ _ _ _ _ S).
Qed.

Lemma automation_saves_render_witness :
  match generate_color_matched_pinterest_template Examples.strict_getrgb
          Examples.mono_width posix_join (fun _ => Py.Returned tt)
          (fun _ => Py.Returned tt) (Py.Returned Examples.landscape) ""
          "generated_pins" 1730000000 [] with
  | (Py.Returned (path, col), fs') =>
      exists img cv,
        Py.Returned Examples.landscape = Py.Returned img /\
        ColorAnalyzer.detect_dominant_color (sampled img) = Py.Returned col /\
        create_color_matched_template Examples.strict_getrgb
          Examples.mono_width (Py.Returned Examples.landscape) "" true None
        = Py.Returned (cv, col) /\
        In (Rectangle 0 400 735 520 col) cv /\
        path = posix_join "generated_pins"
                 (output_filename "" 1730000000) /\
        fs' = [] ++ [(path, cv)]
  | (Py.Raised _, _) => False
  end.
Proof.
  destruct (generate_color_matched_pinterest_template Examples.strict_getrgb
              Examples.mono_width posix_join (fun _ => Py.Returned tt)
              (fun _ => Py.Returned tt) (Py.Returned Examples.landscape) ""
              "generated_pins" 1730000000 [])
    as [[[path col] | e] fs'] eqn:E.
  - exact (automation_saves_render _ _ _ _ _ _ _ _ _ _ _ _ _ E).
  - vm_compute in E. discriminate.
Defined.

(** X17.  The quick function honours a manual colour and a given path:
    called without automatic detection, with a non-empty manual colour and
    a non-empty output path, a call that returns gives back that path and
    that colour, has painted the banner of the rendered canvas in the
    colour, and has written the canvas to the path after the files that
    were there; without an output path (none, or the empty string) the
    file is [smart_pinterest_], the time stamp and [.png]. *)
Theorem quick_function_saves_render
    getrgb text_width can_write opened title output_path manual now fs
    path col fs' :
  manual <> EmptyString ->
  create_smart_color_template getrgb text_width can_write opened title
    output_path false (Some manual) now fs
  = (Py.Returned (path, col), fs') ->
  col = manual /\
  path = match output_path with
         | None | Some EmptyString =>
             ("smart_pinterest_" ++ decimal now ++ ".png")%string
         | Some given => given
         end /\
  exists cv,
    create_color_matched_template getrgb text_width opened title false
      (Some manual) = Py.Returned (cv, col) /\
    In (Rectangle 0 400 735 520 manual) cv /\
    fs' = fs ++ [(path, cv)].
Proof.
  intros Hne. unfold create_smart_color_template.
  set (target := match output_path with
                 | None | Some EmptyString =>
                     ("smart_pinterest_" ++ decimal now ++ ".png")%string
                 | Some given => given
                 end).
  intros H.
  destruct (create_color_matched_template getrgb text_width opened title
              false (Some manual)) as [[cv c] | e] eqn:R; [| discriminate].
  destruct (save_template can_write cv target fs)
    as [[[] | e] fs1] eqn:S; [| discriminate].
  injection H as <- <- <-.
  destruct (render_color _ _ _ _ _ _ _ _ R) as (img & _ & Hcol).
  destruct (CanvasSpec.returned_canvas_shape _ _ _ _ _ _ _ _ R)
    as (top_final & bottom_final & Hcv).
  assert (Ec : c = manual).
  { unfold resolve_color, manual_or_default in Hcol.
    destruct manual; [now elim Hne | now injection Hcol]. }
  subst c. split; [reflexivity |]. split; [reflexivity |].
  exists cv. split; [reflexivity |]. split.
  - rewrite Hcv. simpl. right. right. now left.
  - exact (save_template_returned _ _ _ _ _ S).
Qed.

Lemma quick_function_saves_render_witness :
  match create_smart_color_template Examples.strict_getrgb
          Examples.mono_width (fun _ => Py.Returned tt)
          (Py.Returned Examples.landscape) "" None false
          (Some "#112233"%string) 1730000000 [] with
  | (Py.Returned (path, col), fs') =>
      col = "#112233"%string /\
      path = ("smart_pinterest_" ++ decimal 1730000000 ++ ".png")%string /\
      exists cv,
        create_color_matched_template Examples.strict_getrgb
          Examples.mono_width (Py.Returned Examples.landscape) "" false
          (Some "#112233"%string) = Py.Returned (cv, col) /\
        In (Rectangle 0 400 735 520 "#112233") cv /\
        fs' = [] ++ [(path, cv)]
  | (Py.Raised _, _) => False
  end.
Proof.
  destruct (create_smart_color_template Examples.strict_getrgb
              Examples.mono_width (fun _ => Py.Returned tt)
              (Py.Returned Examples.landscape) "" None false
              (Some "#112233"%string) 1730000000 [])
    as [[[path col] | e] fs'] eqn:E.
  - destruct (quick_function_saves_render Examples.strict_getrgb
                Examples.mono_width (fun _ => Py.Returned tt)
                (Py.Returned Examples.landscape) "" None "#112233"
                1730000000 [] path col fs' ltac:(discriminate) E)
      as (Hc & Hp & cv & Hr & Hin & Hf).
    split; [exact Hc |]. split; [exact Hp |].
    exists cv. split; [exact Hr |]. split; [exact Hin | exact Hf].
  - vm_compute in E. discriminate.
Defined.

End AutomationSpec.

(** ** The shadows of the title: lines 282-291 of design.py *)

(** ** The shadows of the title: lines 282-291 of design.py *)

Module ShadowFacts.
Import LayoutPlanner TemplateComposer Facts ComposerFacts ComposerSpec
       WrapFacts.

Section WithDrawing.
Variable getrgb : string -> Py.outcome rgb.
Variable text_width : string -> Z.

#[local] Abbreviation render :=
  (create_color_matched_template getrgb text_width).

Lemma text_layout_worded title :
  split (Py.upper title) <> [] -> text_layout text_width title <> [].
Proof. apply wrap_worded, split_nonempty. Qed.

Lemma text_layout_wordless title :
  split (Py.upper title) = [] -> text_layout text_width title = [].
Proof. unfold text_layout. now intros ->. Qed.

(** The loop over the lines stops at the first shadow when the parser
    rejects its colour. *)
Lemma first_shadow_raises e start_y lines cv :
  getrgb "rgba(0,0,0,0.5)"%string = Py.Raised e ->
  lines <> [] ->
  for_each (draw_line getrgb text_width start_y) (enumerate_from 0 lines) cv
  = Py.Raised e.
Proof.
  intros He Hlines. destruct lines as [| line lines]; [congruence |].
  simpl. unfold draw_text at 1. now rewrite He.
Qed.

Lemma dotted_line_returns y0 y1 cv :
  returned (getrgb "white"%string) = true ->
  exists cv', dotted_line getrgb y0 y1 cv = Py.Returned cv'.
Proof.
  intros Hwhite. unfold dotted_line. apply for_each_returns.
  intros st x. unfold draw_rectangle.
  destruct (getrgb "white"%string); [simpl; eauto | discriminate].
Qed.

(** A title with a word: the render does not return. *)
Lemma worded_title_raises e opened title use_auto_color manual_color :
  getrgb "rgba(0,0,0,0.5)"%string = Py.Raised e ->
  split (Py.upper title) <> [] ->
  exists e', render opened title use_auto_color manual_color = Py.Raised e'.
Proof.
  intros He Hwords.
  destruct (render opened title use_auto_color manual_color)
    as [[cv color] | e'] eqn:H; [exfalso | eauto].
  unfold create_color_matched_template in H.
  apply bind_returned in H as (img & _ & H).
  apply bind_returned in H as (detected & _ & H).
  apply bind_returned in H as ([] & _ & H).
  apply bind_returned in H as ([top_image bottom_image] & _ & H).
  apply bind_returned in H as (top_final & _ & H).
  apply bind_returned in H as (bottom_final & _ & H).
  apply bind_returned in H as (cv3 & _ & H).
  apply bind_returned in H as (cv4 & _ & H).
  apply bind_returned in H as (cv5 & _ & H).
  apply bind_returned in H as (cv6 & H6 & _).
  rewrite (first_shadow_raises e) in H6;
    [discriminate | exact He | now apply text_layout_worded].
Qed.

(** When everything before the text succeeds, the error is the parser's
    own for the first shadow. *)
Lemma worded_title_raises_at_shadow
    e img title use_auto_color manual_color color t b tf bf :
  getrgb "rgba(0,0,0,0.5)"%string = Py.Raised e ->
  split (Py.upper title) <> [] ->
  resolve_color img use_auto_color manual_color = Py.Returned color ->
  accepts getrgb [color; "white"%string] ->
  band_sources img = Py.Returned (t, b) ->
  fit_band getrgb top_image_height t = Py.Returned tf ->
  fit_band getrgb bottom_image_height b = Py.Returned bf ->
  render (Py.Returned img) title use_auto_color manual_color = Py.Raised e.
Proof.
  intros He Hwords Hcolor Hacc Hsrc Ht Hb.
  assert (Hw : returned (getrgb "white"%string) = true)
    by (apply Hacc; simpl; tauto).
  assert (Hwhite : exists c, getrgb "white"%string = Py.Returned c)
    by now apply accepted_returns.
  assert (Hbanner : exists c, getrgb color = Py.Returned c)
    by (apply accepted_returns, Hacc; simpl; tauto).
  unfold create_color_matched_template. simpl.
  rewrite Hcolor. simpl. unfold new_image.
  destruct Hwhite as [cw ->]. simpl.
  rewrite Hsrc. simpl. rewrite Ht. simpl. rewrite Hb. simpl.
  unfold draw_rectangle at 1. destruct Hbanner as [cb ->]. simpl.
  match goal with
  | |- context [dotted_line getrgb ?y0 ?y1 ?cv] =>
      destruct (dotted_line_returns y0 y1 cv Hw) as [cv4 ->]
  end. simpl.
  match goal with
  | |- context [dotted_line getrgb ?y0 ?y1 ?cv] =>
      destruct (dotted_line_returns y0 y1 cv Hw) as [cv5 ->]
  end. simpl.
  rewrite (first_shadow_raises e);
    [reflexivity | exact He | now apply text_layout_worded].
Qed.

End WithDrawing.

End ShadowFacts.

Module ShadowSpec.
Import LayoutPlanner TemplateComposer Facts MoreFacts ComposerFacts
       ComposerSpec ShadowFacts Automation.

(** C10 (fails on the code).  The claim: with [use_auto_color] false and no
    manual colour the render does not fail, substitutes the default
    "#FF9800", paints the banner with it and returns it.  The code: the
    default is substituted ([manual_color or self.default_color]), and for
    a title without a word the render returns with the banner and the
    colour "#FF9800" once the image opens, the bands are fitted and the
    colour parser takes "#FF9800" and the name white.  For every title with
    a word, lines 289-290 pass the shadow colour "rgba(0,0,0,0.5)" to
    [draw.text]: under a parser that rejects this specifier, as that of the
    imaging library does (its rgba form takes whole numbers only), the
    render raises the parser's error and returns neither canvas nor
    colour. *)
Theorem missing_manual_color_render
    (getrgb : string -> Py.outcome rgb) (text_width : string -> Z)
    (img : image) (title : string) (t b : picture) (tf bf : band) :
  accepts getrgb ["#FF9800"; "white"]%string ->
  band_sources img = Py.Returned (t, b) ->
  fit_band getrgb top_image_height t = Py.Returned tf ->
  fit_band getrgb bottom_image_height b = Py.Returned bf ->
  resolve_color img false None = Py.Returned "#FF9800"%string /\
  (split (Py.upper title) = [] ->
   exists rest,
     create_color_matched_template getrgb text_width (Py.Returned img) title
       false None
     = Py.Returned
         (Paste TopSlot tf 0 0 :: Paste BottomSlot bf 0 520
          :: Rectangle 0 400 735 520 "#FF9800" :: rest, "#FF9800"%string)) /\
  (forall e,
     split (Py.upper title) <> [] ->
     getrgb "rgba(0,0,0,0.5)"%string = Py.Raised e ->
     create_color_matched_template getrgb text_width (Py.Returned img) title
       false None = Py.Raised e).
Proof.
  intros Hacc Hsrc Ht Hb. split; [reflexivity |]. split.
  - intros Hnone.
    apply (render_returns getrgb text_width img title false None
             "#FF9800"%string t b tf bf); try assumption; [reflexivity |].
    unfold constant_fills. rewrite (text_layout_wordless _ _ Hnone).
    exact Hacc.
  - intros e Hwords He.
    now apply (worded_title_raises_at_shadow getrgb text_width e img title
                 false None "#FF9800"%string t b tf bf).
Qed.

Lemma missing_manual_color_render_witness :
  create_color_matched_template Examples.strict_getrgb Examples.mono_width
    (Py.Returned Examples.landscape) "Easy" false None
  = Py.Raised (Py.ValueError "unknown color specifier: rgba(0,0,0,0.5)") /\
  exists rest,
    create_color_matched_template Examples.strict_getrgb Examples.mono_width
      (Py.Returned Examples.landscape) "" false None
    = Py.Returned
        (Paste TopSlot
           (Band (Box 0 0 1600 900) 413 (CropToFill 6) 735 400) 0 0
         :: Paste BottomSlot
              (Band (Box 0 0 1600 900) 413 (Letterbox 84) 735 582) 0 520
         :: Rectangle 0 400 735 520 "#FF9800" :: rest, "#FF9800"%string).
Proof.
  assert (Hacc : accepts Examples.strict_getrgb ["#FF9800"; "white"]%string).
  { intros s Hs. simpl in Hs.
    destruct Hs as [<- | [<- | []]]; vm_compute; reflexivity. }
  assert (Hsrc : band_sources Examples.landscape
                 = Py.Returned (whole Examples.landscape,
                                whole Examples.landscape))
    by (vm_compute; reflexivity).
  assert (Ht : fit_band Examples.strict_getrgb top_image_height
                 (whole Examples.landscape)
               = Py.Returned
                   (Band (Box 0 0 1600 900) 413 (CropToFill 6) 735 400))
    by (vm_compute; reflexivity).
  assert (Hb : fit_band Examples.strict_getrgb bottom_image_height
                 (whole Examples.landscape)
               = Py.Returned
                   (Band (Box 0 0 1600 900) 413 (Letterbox 84) 735 582))
    by (vm_compute; reflexivity).
  split.
  - pose proof (missing_manual_color_render Examples.strict_getrgb
                  Examples.mono_width Examples.landscape "Easy"
                  _ _ _ _ Hacc Hsrc Ht Hb) as (_ & _ & Hraise).
    apply Hraise; [vm_compute; discriminate | vm_compute; reflexivity].
  - pose proof (missing_manual_color_render Examples.strict_getrgb
                  Examples.mono_width Examples.landscape ""
                  _ _ _ _ Hacc Hsrc Ht Hb) as (_ & Hret & _).
    apply Hret. reflexivity.
Defined.

(** X7.  The title is never drawn when the colour parser rejects the shadow
    colour "rgba(0,0,0,0.5)" of line 289, as that of the imaging library
    does.  Whatever the image and the colour options, a title with a word
    makes the render raise, and the automation entry point then raises too
    and writes no file; a render that returns was given a title without a
    word, and its canvas holds no text call. *)
Theorem title_never_drawn
    getrgb text_width path_join makedirs can_write
    opened title use_auto_color manual_color output_dir now fs e :
  getrgb "rgba(0,0,0,0.5)"%string = Py.Raised e ->
  (split (Py.upper title) <> [] ->
   (exists e', create_color_matched_template getrgb text_width opened title
                 use_auto_color manual_color = Py.Raised e') /\
   (exists e', generate_color_matched_pinterest_template getrgb text_width
                 path_join makedirs can_write opened title output_dir now fs
               = (Py.Raised e', fs))) /\
  (forall cv color,
     create_color_matched_template getrgb text_width opened title
       use_auto_color manual_color = Py.Returned (cv, color) ->
     split (Py.upper title) = [] /\
     forall x y line fill, ~ In (Text x y line fill) cv).
Proof.
  intros He. split.
  - intros Hwords. split.
    + now apply (worded_title_raises getrgb text_width e).
    + unfold generate_color_matched_pinterest_template.
      destruct (makedirs output_dir) as [[] | e0]; [| eauto].
      destruct (worded_title_raises getrgb text_width e opened title true None
                  He Hwords) as [e' ->].
      eauto.
  - intros cv color H.
    assert (Hnone : split (Py.upper title) = []).
    { destruct (split (Py.upper title)) as [| w ws] eqn:E; [reflexivity |].
      destruct (worded_title_raises getrgb text_width e opened title
                  use_auto_color manual_color He) as [e' He'].
      - rewrite E. discriminate.
      - rewrite He' in H. discriminate. }
    split; [exact Hnone |].
    destruct (CanvasSpec.returned_canvas_shape _ _ _ _ _ _ _ _ H)
      as (top_final & bottom_final & ->).
    rewrite (text_layout_wordless _ _ Hnone).
    cbn [enumerate_from flat_map]. rewrite app_nil_r.
    intros x y line fill Hin. cbn [app In] in Hin.
    destruct Hin as [Hin | [Hin | [Hin | Hin]]]; try discriminate.
    apply in_app_or in Hin as [Hin | Hin];
      apply CanvasSpec.dots_placed in Hin as (x0 & Hx & _); discriminate.
Qed.

Lemma title_never_drawn_witness :
  (exists e', create_color_matched_template Examples.strict_getrgb
                Examples.mono_width (Py.Returned Examples.landscape)
                "Easy recipes" true None = Py.Raised e') /\
  (exists e', generate_color_matched_pinterest_template
                Examples.strict_getrgb Examples.mono_width posix_join
                (fun _ => Py.Returned tt) (fun _ => Py.Returned tt)
                (Py.Returned Examples.landscape) "Easy recipes"
                "generated_pins" 1730000000 []
              = (Py.Raised e', [])).
Proof.
  destruct (title_never_drawn Examples.strict_getrgb Examples.mono_width
              posix_join (fun _ => Py.Returned tt) (fun _ => Py.Returned tt)
              (Py.Returned Examples.landscape) "Easy recipes" true None
              "generated_pins" 1730000000 []
              (Py.ValueError "unknown color specifier: rgba(0,0,0,0.5)")
              eq_refl) as [Hraise _].
  apply Hraise. vm_compute. discriminate.
Defined.

End ShadowSpec.

(** ** The browser variant of the analyzer: lines 14-105 of template.py *)

Module BrowserSpec.
Import Facts MoreFacts TableFacts AnalyzerFacts BrowserAnalyzer.

(** *** The colour map *)

Lemma keys_bump k m x : In x (keys (bump k m)) <-> x = k \/ In x (keys m).
Proof.
  induction m as [| [k' c] rest IH]; simpl.
  - intuition.
  - destruct (same_rgb k k') eqn:E; simpl.
    + apply same_rgb_true in E. subst. intuition.
    + rewrite IH. intuition.
Qed.

Lemma bump_count k k' m :
  table_count k (bump k' m)
  = table_count k m + (if same_rgb k k' then 1 else 0).
Proof.
  induction m as [| [k0 c] rest IH]; simpl.
  - destruct (same_rgb k k'); reflexivity.
  - destruct (same_rgb k' k0) eqn:E0; simpl.
    + apply same_rgb_true in E0. subst k0.
      destruct (same_rgb k k'); lia.
    + destruct (same_rgb k k0) eqn:E1; [| exact IH].
      apply same_rgb_true in E1. subst k0.
      assert (E : same_rgb k k' = false).
      { apply same_rgb_false. intros ->. now rewrite same_rgb_refl in E0. }
      rewrite E. lia.
Qed.

Lemma bump_NoDup k m : NoDup (keys m) -> NoDup (keys (bump k m)).
Proof.
  induction m as [| [k' c] rest IH]; simpl; intros ND.
  - repeat constructor. intros [].
  - inversion ND as [| ? ? Hnot NDrest]; subst.
    destruct (same_rgb k k') eqn:E; simpl.
    + now constructor.
    + constructor; [| now apply IH].
      intros Hin. apply keys_bump in Hin as [-> | Hin]; [| contradiction].
      now rewrite same_rgb_refl in E.
Qed.

Lemma bump_positive k m :
  Forall (fun e => 1 <= snd e) m -> Forall (fun e => 1 <= snd e) (bump k m).
Proof.
  induction m as [| [k' c] rest IH]; simpl; intros F.
  - repeat constructor. simpl. lia.
  - inversion F as [| ? ? Hc Frest]; subst. simpl in Hc.
    destruct (same_rgb k k'); constructor; simpl; try lia; auto.
Qed.

Lemma fold_count_pixel l m :
  NoDup (keys m) -> Forall (fun e => 1 <= snd e) m ->
  let m' := fold_left count_pixel l m in
  NoDup (keys m') /\ Forall (fun e => 1 <= snd e) m' /\
  (forall k, table_count k m' = table_count k m + occurrences k (counted l)) /\
  (forall k, In k (keys m') <-> In k (keys m) \/ In k (counted l)).
Proof.
  cbv zeta.
  revert m. induction l as [| p l IH]; intros m ND Pos; cbn [fold_left].
  - repeat split; try assumption.
    + intros k. unfold occurrences, counted. simpl. lia.
    + now left.
    + intros [H | []]. exact H.
  - assert (Ecounted : counted (p :: l)
                      = if skipped p then counted l
                        else group (color p) :: counted l).
    { unfold counted. simpl. now destruct (skipped p). }
    assert (Estep : count_pixel m p
                    = if skipped p then m else bump (group (color p)) m)
      by reflexivity.
    rewrite Ecounted, Estep.
    destruct (skipped p) eqn:Hs.
    + exact (IH m ND Pos).
    + destruct (IH (bump (group (color p)) m) (bump_NoDup _ _ ND)
                   (bump_positive _ _ Pos)) as (ND' & Pos' & Hc & Hk).
      repeat split; try assumption.
      * intros k. rewrite Hc, bump_count. unfold occurrences.
        simpl. destruct (same_rgb k (group (color p))); simpl; lia.
      * intros H. apply Hk in H as [H | H].
        -- apply keys_bump in H as [-> | H]; [right; now left | now left].
        -- right. now right.
      * intros [H | [<- | H]]; apply Hk.
        -- left. apply keys_bump. now right.
        -- left. apply keys_bump. now left.
        -- now right.
Qed.

Lemma colorMap_spec pixels :
  NoDup (keys (colorMap pixels)) /\
  Forall (fun e => 1 <= snd e) (colorMap pixels) /\
  (forall k, table_count k (colorMap pixels) = browser_occurrences k pixels) /\
  (forall k, In k (keys (colorMap pixels)) <-> In k (counted (visited pixels))).
Proof.
  destruct (fold_count_pixel (visited pixels) [] (NoDup_nil _) (Forall_nil _))
    as (ND & Pos & Hc & Hk).
  split; [exact ND |]. split; [exact Pos |]. split.
  - intros k. exact (Hc k).
  - intros k. split.
    + intros H. apply Hk in H as [[] | H]. exact H.
    + intros H. apply Hk. now right.
Qed.

Lemma entry_count m k n :
  NoDup (keys m) -> In (k, n) m -> table_count k m = n.
Proof.
  induction m as [| [k' c] rest IH]; simpl; intros ND Hin; [contradiction |].
  inversion ND as [| ? ? Hnot NDrest]; subst.
  destruct Hin as [E | Hin].
  - injection E as -> ->. now rewrite same_rgb_refl.
  - destruct (same_rgb k k') eqn:E; [| now apply IH].
    apply same_rgb_true in E. subst k'. exfalso. apply Hnot.
    apply in_map_iff. now exists (k, n).
Qed.

(** *** The loop over the entries *)

Lemma pick_keeps_inv st seen k n :
  1 <= n -> pick_inv st seen -> pick_inv (pick st (k, n)) (seen ++ [(k, n)]).
Proof.
  intros Hn. destruct st as [[w |] mx]; simpl; intros Inv.
  - destruct Inv as (Hw & Hin & Hmax).
    destruct (Z.ltb_spec mx n) as [Hlt | Hge];
      [destruct (vibrant k) eqn:Hk |]; simpl.
    + split; [exact Hk |]. split; [apply in_or_app; right; now left |].
      intros k' n' H' Hv. apply in_app_or in H' as [H' | [E | []]].
      * specialize (Hmax _ _ H' Hv). lia.
      * injection E as <- <-. lia.
    + split; [exact Hw |]. split; [apply in_or_app; now left |].
      intros k' n' H' Hv. apply in_app_or in H' as [H' | [E | []]].
      * now apply (Hmax k' n').
      * injection E as <- <-. congruence.
    + split; [exact Hw |]. split; [apply in_or_app; now left |].
      intros k' n' H' Hv. apply in_app_or in H' as [H' | [E | []]].
      * now apply (Hmax k' n').
      * injection E as <- <-. exact Hge.
  - destruct Inv as (-> & Hnone).
    destruct (Z.ltb_spec 0 n) as [Hlt | Hge]; [| lia].
    destruct (vibrant k) eqn:Hk; simpl.
    + split; [exact Hk |]. split; [apply in_or_app; right; now left |].
      intros k' n' H' Hv. apply in_app_or in H' as [H' | [E | []]].
      * rewrite (Hnone _ _ H') in Hv. discriminate.
      * injection E as <- <-. lia.
    + split; [reflexivity |].
      intros k' n' H'. apply in_app_or in H' as [H' | [E | []]].
      * now apply (Hnone k' n').
      * now injection E as <- <-.
Qed.

Lemma pick_fold_inv rest st seen :
  Forall (fun e => 1 <= snd e) rest ->
  pick_inv st seen -> pick_inv (fold_left pick rest st) (seen ++ rest).
Proof.
  revert st seen. induction rest as [| [k n] rest IH]; intros st seen F Inv.
  - now rewrite app_nil_r.
  - inversion F as [| ? ? Hn Frest]; subst. simpl in Hn. cbn [fold_left].
    replace (seen ++ (k, n) :: rest) with ((seen ++ [(k, n)]) ++ rest)
      by now rewrite <- app_assoc.
    apply IH; [exact Frest |]. now apply pick_keeps_inv.
Qed.

Lemma most_frequent_spec m :
  Forall (fun e => 1 <= snd e) m -> pick_inv (most_frequent m) m.
Proof.
  intros F. unfold most_frequent.
  apply (pick_fold_inv m (None, 0) [] F). simpl. split; [reflexivity |].
  intros k n [].
Qed.

(** What the function returns on a readable sample. *)
Lemma browser_detect_cases pixels :
  (detectDominantColor (Py.Returned pixels) = "#FF9800"%string /\
   forall k, 0 < browser_occurrences k pixels -> vibrant k = false) \/
  exists w,
    vibrant w = true /\
    In w (counted (visited pixels)) /\
    (forall k, vibrant k = true ->
               browser_occurrences k pixels <= browser_occurrences w pixels) /\
    detectDominantColor (Py.Returned pixels) = hex (enhance w).
Proof.
  destruct (colorMap_spec pixels) as (ND & Pos & Hcount & Hkeys).
  pose proof (most_frequent_spec _ Pos) as Inv.
  unfold detectDominantColor.
  assert (Hentry : forall k, 0 < browser_occurrences k pixels ->
                   In (k, browser_occurrences k pixels) (colorMap pixels)).
  { intros k Hk. rewrite <- Hcount in Hk.
    assert (Hin : In k (keys (colorMap pixels))).
    { destruct (in_dec (fun a b => match Bool.bool_dec (same_rgb a b) true with
                                   | left e => left (proj1 (same_rgb_true a b) e)
                                   | right ne => right
                                       (fun e => ne (proj2 (same_rgb_true a b) e))
                                   end) k (keys (colorMap pixels)))
        as [Hin | Hnot]; [exact Hin |].
      rewrite (table_count_absent _ _ Hnot) in Hk. lia. }
    apply in_map_iff in Hin as ([k' n] & E & Hin). simpl in E. subst k'.
    rewrite <- Hcount, (entry_count _ _ _ ND Hin). exact Hin. }
  destruct (most_frequent (colorMap pixels)) as [[w |] mx]; simpl in Inv |- *.
  - right. destruct Inv as (Hw & Hin & Hmax). exists w.
    pose proof (entry_count _ _ _ ND Hin) as Hmx. rewrite Hcount in Hmx.
    split; [exact Hw |]. split.
    + apply Hkeys. apply in_map_iff. now exists (w, mx).
    + split; [| reflexivity].
      intros k Hk. rewrite Hmx.
      destruct (Z.ltb_spec 0 (browser_occurrences k pixels)) as [Hpos | Hz].
      * exact (Hmax _ _ (Hentry k Hpos) Hk).
      * pose proof (Forall_forall (fun e => 1 <= snd e) (colorMap pixels)) as Ff.
        pose proof (proj1 Ff Pos (w, mx) Hin) as Hone. simpl in Hone. lia.
  - left. destruct Inv as (_ & Hnone). split; [reflexivity |].
    intros k Hk. exact (Hnone _ _ (Hentry k Hk)).
Qed.

(** X18.  The browser variant picks by frequency alone.  Its counted
    pixels are one of every four, neither transparent nor near-white; a
    bucket is vibrant when its saturation is above 0.2 and its largest
    channel above 80.  Either no counted pixel lies in a vibrant bucket and
    the function returns "#FF9800", or it returns the enhanced colour of a
    vibrant bucket that holds a counted pixel and at least as many counted
    pixels as every other vibrant bucket. *)
Theorem browser_picks_most_frequent (pixels : list rgba) :
  (detectDominantColor (Py.Returned pixels) = "#FF9800"%string /\
   forall k, 0 < browser_occurrences k pixels -> vibrant k = false) \/
  exists w,
    vibrant w = true /\
    0 < browser_occurrences w pixels /\
    (forall k, vibrant k = true ->
               browser_occurrences k pixels <= browser_occurrences w pixels) /\
    detectDominantColor (Py.Returned pixels) = hex (enhance w).
Proof.
  destruct (browser_detect_cases pixels) as [H | (w & Hw & Hin & Hmax & Hd)];
    [now left | right].
  exists w. repeat split; try assumption.
  unfold browser_occurrences.
  clear - Hin. unfold occurrences.
  induction (counted (visited pixels)) as [| a l IH]; [contradiction |].
  simpl. destruct Hin as [-> | Hin].
  - rewrite same_rgb_refl. simpl. lia.
  - specialize (IH Hin). destruct (same_rgb w a); simpl; lia.
Qed.

(** *** Buckets of eight-bit pixels *)

Lemma byte_value v : uint8 v -> In v byte_values.
Proof.
  unfold uint8, byte_values. intros Hv.
  apply in_map_iff. exists (Z.to_nat v). split; [lia |].
  apply in_seq. lia.
Qed.

Lemma browser_group_channel v :
  uint8 v -> group_channel v = ColorAnalyzer.group_channel v.
Proof.
  intros Hv.
  assert (C : forallb (fun v => group_channel v
                                =? ColorAnalyzer.group_channel v)
                      byte_values = true) by (vm_compute; reflexivity).
  rewrite forallb_forall in C. apply Z.eqb_eq. apply C. now apply byte_value.
Qed.

Lemma browser_group p : wf_pixel p -> group p = ColorAnalyzer.group p.
Proof.
  intros (Hr & Hg & Hb). unfold group, ColorAnalyzer.group.
  now rewrite !browser_group_channel.
Qed.

Lemma stride_in n pixels p : In p (stride n pixels) -> In p pixels.
Proof.
  revert n. induction pixels as [| q rest IH]; intros n; simpl;
    [intros [] |].
  destruct n as [| n]; simpl.
  - intros [-> | H]; [now left | right; eauto].
  - intros H. right. eauto.
Qed.

Lemma counted_in w pixels :
  In w (counted (visited pixels)) ->
  exists p, In p pixels /\ skipped p = false /\ w = group (color p).
Proof.
  unfold counted. intros H. apply in_map_iff in H as (p & <- & Hp).
  apply filter_In in Hp as [Hp Hs]. apply negb_true_iff in Hs.
  exists p. split; [now apply (stride_in 0) | now split].
Qed.

Lemma gray_bucket_not_vibrant v : In v steps -> vibrant (RGB v v v) = false.
Proof.
  intros Hv.
  assert (C : forallb (fun v => negb (vibrant (RGB v v v))) steps = true)
    by (vm_compute; reflexivity).
  rewrite forallb_forall in C. apply negb_true_iff. now apply C.
Qed.

(** X19.  Both variants put an eight-bit pixel into the same bucket: the
    browser's [Math.floor(v / 32) * 32] on doubles and the eight-bit
    [(v // 32) * 32] of the Python analyzer agree on every channel value
    from 0 to 255. *)
Theorem variants_bucket_alike (p : rgb) :
  wf_pixel p -> BrowserAnalyzer.group p = ColorAnalyzer.group p.
Proof. apply browser_group. Qed.

Lemma variants_bucket_alike_witness :
  BrowserAnalyzer.group (RGB 230 10 130)
  = ColorAnalyzer.group (RGB 230 10 130).
Proof.
  apply variants_bucket_alike. repeat split; unfold uint8; simpl; lia.
Defined.

(** X20.  When every pixel read back from the canvas is transparent (alpha
    below 128) or gray (R = G = B), the browser variant returns the
    fallback "#FF9800". *)
Theorem browser_gray_sample_default (pixels : list rgba) :
  Forall wf_rgba pixels ->
  Forall transparent_or_gray pixels ->
  detectDominantColor (Py.Returned pixels) = "#FF9800"%string.
Proof.
  intros Hwf Hgray.
  destruct (browser_detect_cases pixels)
    as [[H _] | (w & Hw & Hin & _ & _)]; [exact H | exfalso].
  apply counted_in in Hin as (p & Hp & Hs & ->).
  rewrite Forall_forall in Hwf, Hgray.
  destruct (Hwf p Hp) as [Hc Ha]. pose proof Hc as (Hr & _ & _).
  unfold skipped in Hs. apply orb_false_iff in Hs as [Halpha _].
  apply Z.ltb_ge in Halpha.
  destruct (Hgray p Hp) as [Ht | [Erg Egb]]; [lia |].
  rewrite (browser_group _ Hc) in Hw.
  unfold ColorAnalyzer.group in Hw. rewrite <- Egb, <- Erg in Hw.
  rewrite gray_bucket_not_vibrant in Hw; [discriminate |].
  now apply group_channel_steps.
Qed.

Lemma browser_gray_sample_default_witness :
  detectDominantColor
    (Py.Returned [RGBA (RGB 128 128 128) 255; RGBA (RGB 230 10 130) 0;
                  RGBA (RGB 17 17 17) 200; RGBA (RGB 250 250 250) 255;
                  RGBA (RGB 230 10 130) 127])
  = "#FF9800"%string.
Proof.
  apply browser_gray_sample_default.
  - repeat constructor; unfold uint8; simpl; lia.
  - repeat (apply Forall_cons;
            [unfold transparent_or_gray; simpl;
             first [left; lia | right; split; reflexivity] |]).
    apply Forall_nil.
Defined.

(** X21.  On eight-bit pixel data the browser variant returns either the
    fallback "#FF9800" or a sharp sign followed by six lower-case
    hexadecimal digits. *)
Theorem browser_result_is_hex (pixels : list rgba) :
  Forall wf_rgba pixels ->
  detectDominantColor (Py.Returned pixels) = "#FF9800"%string \/
  hex_color_of lower_hex_digit (detectDominantColor (Py.Returned pixels))
  = true.
Proof.
  intros Hwf.
  destruct (browser_detect_cases pixels)
    as [[H _] | (w & _ & Hin & _ & ->)]; [now left | right].
  apply counted_in in Hin as (p & Hp & _ & ->).
  rewrite Forall_forall in Hwf. destruct (Hwf p Hp) as [Hc _].
  rewrite (browser_group _ Hc).
  assert (C : forallb (fun b => hex_color_of lower_hex_digit (hex (enhance b)))
                      all_buckets = true) by (vm_compute; reflexivity).
  apply (check_buckets _ C). now apply group_in_buckets.
Qed.

Lemma browser_result_is_hex_witness :
  detectDominantColor
    (Py.Returned (repeat (RGBA (RGB 230 10 130) 255) 8)) = "#FF9800"%string \/
  hex_color_of lower_hex_digit
    (detectDominantColor
       (Py.Returned (repeat (RGBA (RGB 230 10 130) 255) 8))) = true.
Proof.
  apply browser_result_is_hex.
  repeat constructor; unfold uint8; simpl; lia.
Defined.

End BrowserSpec.

(** ** Font loading *)

Module FontSpec.
Import Fonts.

Lemma first_font_skips
    {font : Type} path_exists (truetype : string -> Z -> Py.outcome font)
    size before rest :
  forallb (fun p => negb (usable font path_exists truetype size p)) before
  = true ->
  first_font font path_exists truetype (before ++ rest) size
  = first_font font path_exists truetype rest size.
Proof.
  induction before as [| p before IH]; simpl; [reflexivity |].
  rewrite andb_true_iff, negb_true_iff. intros [Hp Hrest].
  unfold usable in Hp.
  destruct (path_exists p); simpl in Hp; [| now apply IH].
  destruct (truetype p size); [discriminate | now apply IH].
Qed.

(** X22.  The font is taken from the first listed path that exists and
    loads: paths that do not exist, and existing files the font library
    fails to load, are passed over without an error.  When no listed path
    is usable, the result is that of the library's default font, the only
    way for the function to raise. *)
Theorem load_font_first_usable
    {font : Type} path_exists (truetype : string -> Z -> Py.outcome font)
    load_default size :
  (forall before p after f,
     font_paths = before ++ p :: after ->
     forallb (fun q => negb (usable font path_exists truetype size q)) before
     = true ->
     path_exists p = true -> truetype p size = Py.Returned f ->
     load_font font path_exists truetype load_default size = Py.Returned f) /\
  (forallb (fun q => negb (usable font path_exists truetype size q))
           font_paths = true ->
   load_font font path_exists truetype load_default size = load_default).
Proof.
  split.
  - intros before p after f E Hbefore Hp Hf. unfold load_font.
    rewrite E, (first_font_skips _ _ _ _ _ Hbefore). simpl.
    now rewrite Hp, Hf.
  - intros Hnone. unfold load_font.
    rewrite <- (app_nil_r font_paths), (first_font_skips _ _ _ _ _ Hnone).
    reflexivity.
Qed.

Lemma load_font_first_usable_witness :
  load_font (string * Z)
    (fun p => (p =? "C:/Windows/Fonts/arial.ttf")%string
              || (p =? "/usr/share/fonts/truetype/dejavu/DejaVuSans-Bold.ttf")
                   %string)
    (fun p size =>
       if (p =? "C:/Windows/Fonts/arial.ttf")%string
       then Py.Raised (Py.OSError "unknown file format")
       else Py.Returned (p, size))
    (Py.Returned ("default"%string, 10)) 38
  = Py.Returned
      ("/usr/share/fonts/truetype/dejavu/DejaVuSans-Bold.ttf"%string, 38).
Proof.
  apply (proj1 (load_font_first_usable _ _ _ _)
           ["C:/Windows/Fonts/arialbd.ttf";
            "C:/Windows/Fonts/arial.ttf";
            "/System/Library/Fonts/Arial Bold.ttf";
            "/System/Library/Fonts/Arial.ttf"]%string
           "/usr/share/fonts/truetype/dejavu/DejaVuSans-Bold.ttf"%string
           []);
    reflexivity.
Defined.

End FontSpec.
